(** * Printer_WEB_APIServer: the activation / entitlement core

    A shallow embedding of the Flask application under [app/]: the models
    [ActivationKey] and [Device], the key generator, the decorators of
    [middleware/auth_required.py], the CLI command of [app/__init__.py] and
    the route handlers of [routes/auth.py], [routes/activation.py] and
    [routes/admin.py] that write activation keys, devices or users, or
    evaluate the entitlement of a user.  The listings and statistics of
    [routes/admin.py], the token refresh and [routes/products.py] read or
    write nothing of that and are left out.

    Conventions of the embedding.
    - A [datetime] is an instant in microseconds on one UTC time line; a
      [timedelta] is a difference of two instants.  The bounded range of
      Python's [datetime] and the naive/aware distinction are not modelled.
    - A handler invocation reads the clock once: the value is the argument
      [now] of the handler.
    - A table is the list of its rows in table order; [Query.first()]
      returns the first row, in that order, that passes the filter.  A row
      changed through the session is written back in place at commit.
    - A primary key is a [positive], drawn from the sequence of its table;
      an identifier that arrives in a URL or in a body is an integer.
    - A request body is what [request.get_json()] returned: [None], or a
      JSON object given by its items.  JSON numbers are the integers.
    - A handler that returns early or raises has not committed: the
      session is discarded and the database is the one it started from.
    - Where an ill-typed JSON field would be handed to the database, the
      model raises [DataError]: the coercions of the database driver are
      not part of the source.
    - Text is ASCII: [strip], [upper] and [lower] act on the ASCII range. *)

From Stdlib Require Import ZArith Lia Ascii String DecimalString.
From stdpp Require Import list strings relations.

Set Warnings "-register-all".

Open Scope Z_scope.

(** ** Python values and built-ins *)

Module Py.

(** [str.isspace] on the ASCII range: tab, line feed, vertical tab, form
    feed, carriage return, the four separators 28..31 and the space. *)
Definition isspace (c : ascii) : bool :=
  let n := nat_of_ascii c in
  ((9 <=? n) && (n <=? 13) || (28 <=? n) && (n <=? 32))%nat.

Fixpoint lstrip (s : string) : string :=
  match s with
  | String c s' => if isspace c then lstrip s' else s
  | EmptyString => EmptyString
  end.

Fixpoint rstrip (s : string) : string :=
  match s with
  | String c s' =>
      match rstrip s' with
      | EmptyString => if isspace c then EmptyString else String c EmptyString
      | r => String c r
      end
  | EmptyString => EmptyString
  end.

Definition strip (s : string) : string := rstrip (lstrip s).

Definition upper_char (c : ascii) : ascii :=
  let n := nat_of_ascii c in
  if ((97 <=? n) && (n <=? 122))%nat then ascii_of_nat (n - 32) else c.

Definition lower_char (c : ascii) : ascii :=
  let n := nat_of_ascii c in
  if ((65 <=? n) && (n <=? 90))%nat then ascii_of_nat (n + 32) else c.

Fixpoint map_chars (f : ascii -> ascii) (s : string) : string :=
  match s with
  | String c s' => String (f c) (map_chars f s')
  | EmptyString => EmptyString
  end.

(** [str.upper] and [str.lower], on ASCII text. *)
Definition upper : string -> string := map_chars upper_char.
Definition lower : string -> string := map_chars lower_char.

(** [str(n)] for an integer. *)
Definition str_of_int (n : Z) : string := NilZero.string_of_int (Z.to_int n).

(** [sep.join(parts)]. *)
Fixpoint join (sep : string) (parts : list string) : string :=
  match parts with
  | [] => ""
  | [p] => p
  | p :: rest => p +:+ sep +:+ join sep rest
  end.

(** Instants and durations, in microseconds. *)
Definition datetime := Z.
Definition timedelta := Z.

Definition day : timedelta := 86400000000.

(** [timedelta(days=n)]. *)
Definition days_delta (n : Z) : timedelta := n * day.

(** The [days] and [seconds] attributes of a normalised [timedelta]:
    [days] is the floor of the duration in days, [seconds] the whole
    seconds of the non-negative remainder. *)
Definition td_days (d : timedelta) : Z := d / day.
Definition td_seconds (d : timedelta) : Z := (d mod day) / 1000000.

(** JSON values.  [JTime t] stands for [t.isoformat()]. *)
Inductive jval : Type :=
| JNull
| JBool (b : bool)
| JInt (n : Z)
| JStr (s : string)
| JTime (t : datetime)
| JArr (items : list jval)
| JObj (items : list (string * jval)).

Definition json := list (string * jval).

(** Truth value of a Python object ([if v:], [not v], [v or w]). *)
Definition truthy (v : jval) : bool :=
  match v with
  | JNull => false
  | JBool b => b
  | JInt n => negb (n =? 0)
  | JStr s => negb (String.eqb s "")
  | JTime _ => true
  | JArr l => match l with [] => false | _ => true end
  | JObj l => match l with [] => false | _ => true end
  end.

(** [d.get(k)] as an option ([None] when [k not in d]) and
    [d.get(k, default)]. *)
Fixpoint lookup_key (d : json) (k : string) : option jval :=
  match d with
  | [] => None
  | (k', v) :: d' => if String.eqb k' k then Some v else lookup_key d' k
  end.

Definition get (d : json) (k : string) (default : jval) : jval :=
  match lookup_key d k with Some v => v | None => default end.

(** [v == s] for a string literal [s]. *)
Definition eq_str (v : jval) (s : string) : bool :=
  match v with JStr s' => String.eqb s' s | _ => false end.

(** [s or None] for a string [s]. *)
Definition or_None (s : string) : option string :=
  if String.eqb s "" then None else Some s.

Definition opt_truthy (o : option string) : bool :=
  match o with Some s => negb (String.eqb s "") | None => false end.

(** Exceptions that end a request without a response of the handler. *)
Inductive exn : Type :=
| AttributeError
| TypeError
| ValueError
| NoAuthorizationError
| IntegrityError
| DataError.

(** What the client receives: [jsonify(body), code], or the exception
    that escaped the handler. *)
Inductive reply : Type :=
| Response (body : jval) (code : Z)
| Raised (e : exn).

Definition code_of (r : reply) : option Z :=
  match r with Response _ c => Some c | Raised _ => None end.

(** [v[k]] for a JSON object [v]. *)
Definition item (v : jval) (k : string) : option jval :=
  match v with JObj items => lookup_key items k | _ => None end.

(** [d[k] = v] on the items of a dict: the value of an existing key is
    replaced where it stands, a new key goes to the end. *)
Fixpoint setitem (d : json) (k : string) (v : jval) : json :=
  match d with
  | [] => [(k, v)]
  | (k', v') :: d' =>
      if String.eqb k' k then (k', v) :: d' else (k', v') :: setitem d' k v
  end.

(** The items of a value that is a dict. *)
Definition items_of (v : jval) : json :=
  match v with JObj items => items | _ => [] end.

(** [jsonify({'error': msg}), code]. *)
Definition error (msg : string) (code : Z) : reply :=
  Response (JObj [("error", JStr msg)]) code.

(** A handler under way: [inl r] once it has returned [r] or raised,
    [inr x] while it goes on with [x]. *)
Definition handler (A : Type) : Type := (reply + A)%type.

Definition bind {A B} (m : handler A) (k : A -> handler B) : handler B :=
  match m with inl r => inl r | inr x => k x end.

(** [if c: return r]. *)
Definition return_if (c : bool) (r : reply) : handler unit :=
  if c then inl r else inr tt.

(** [v.strip()], [v.lower()], ... need [v] to be a [str]. *)
Definition as_str (v : jval) : handler string :=
  match v with JStr s => inr s | _ => inl (Raised AttributeError) end.

(** A handler under way that can stop only by raising. *)
Definition only_raises {A} (h : handler A) : Prop :=
  forall r, h = inl r -> exists e, r = Raised e.

(** The integer behind a JSON number or a [bool], for arithmetic and
    comparison with an [int]; [None] where Python raises [TypeError]. *)
Definition as_int (v : jval) : option Z :=
  match v with
  | JInt n => Some n
  | JBool b => Some (if b then 1 else 0)
  | _ => None
  end.

(** [str(v)] inside an f-string, for the values [as_int] accepts. *)
Definition fmt (v : jval) : string :=
  match v with
  | JInt n => str_of_int n
  | JBool true => "True"
  | JBool false => "False"
  | JStr s => s
  | _ => "None"
  end.

Definition opt_str (o : option string) : jval :=
  match o with Some s => JStr s | None => JNull end.

Definition opt_time (o : option datetime) : jval :=
  match o with Some t => JTime t | None => JNull end.

Definition opt_id (o : option positive) : jval :=
  match o with Some p => JInt (Zpos p) | None => JNull end.

End Py.

Import Py.

Notation "x <- m ;; k" := (Py.bind m (fun x => k))
  (at level 100, m at next level, right associativity).
Notation "m ;;; k" := (Py.bind m (fun _ => k))
  (at level 100, right associativity).
Notation "x |> f" := (f x) (at level 45, left associativity, only parsing).

(** ** The models *)

Module User.

(** Modelled from the spec: the [User] model ([models/user.py]) is not
    among the sources.  The fields are those the spec lists for a user and
    the handlers read: the primary key, the unique email, the password
    credential and the two flags. *)
Record t : Type := mk {
  id : positive;
  email : string;
  password_hash : string;
  is_active : bool;
  is_admin : bool;
  created_at : datetime
}.

Definition set_is_active (v : bool) (u : t) : t :=
  mk (id u) (email u) (password_hash u) v (is_admin u) (created_at u).
Definition set_is_admin (v : bool) (u : t) : t :=
  mk (id u) (email u) (password_hash u) (is_active u) v (created_at u).
Definition set_password_hash (v : string) (u : t) : t :=
  mk (id u) (email u) v (is_active u) (is_admin u) (created_at u).

End User.

Module ActivationKey.

(** [models/activation_key.py].  [status] is the stored string:
    available / sold / activated / expired / revoked. *)
Record t : Type := mk {
  id : positive;
  key_code : string;
  duration_days : Z;
  status : string;
  (* filled on activation *)
  user_id : option positive;
  activated_email : option string;
  activated_at : option datetime;
  expires_at : option datetime;
  (* sales tracking *)
  sold_to_name : option string;
  sold_to_email : option string;
  sold_at : option datetime;
  sold_price : option Z;
  notes : option string;
  (* admin who created the key *)
  created_by : option positive;
  created_at : datetime
}.

Definition set_duration_days (v : Z) (k : t) : t :=
  mk (id k) (key_code k) v (status k) (user_id k) (activated_email k)
     (activated_at k) (expires_at k) (sold_to_name k) (sold_to_email k)
     (sold_at k) (sold_price k) (notes k) (created_by k) (created_at k).
Definition set_status (v : string) (k : t) : t :=
  mk (id k) (key_code k) (duration_days k) v (user_id k) (activated_email k)
     (activated_at k) (expires_at k) (sold_to_name k) (sold_to_email k)
     (sold_at k) (sold_price k) (notes k) (created_by k) (created_at k).
Definition set_user_id (v : option positive) (k : t) : t :=
  mk (id k) (key_code k) (duration_days k) (status k) v (activated_email k)
     (activated_at k) (expires_at k) (sold_to_name k) (sold_to_email k)
     (sold_at k) (sold_price k) (notes k) (created_by k) (created_at k).
Definition set_activated_email (v : option string) (k : t) : t :=
  mk (id k) (key_code k) (duration_days k) (status k) (user_id k) v
     (activated_at k) (expires_at k) (sold_to_name k) (sold_to_email k)
     (sold_at k) (sold_price k) (notes k) (created_by k) (created_at k).
Definition set_activated_at (v : option datetime) (k : t) : t :=
  mk (id k) (key_code k) (duration_days k) (status k) (user_id k)
     (activated_email k) v (expires_at k) (sold_to_name k) (sold_to_email k)
     (sold_at k) (sold_price k) (notes k) (created_by k) (created_at k).
Definition set_expires_at (v : option datetime) (k : t) : t :=
  mk (id k) (key_code k) (duration_days k) (status k) (user_id k)
     (activated_email k) (activated_at k) v (sold_to_name k) (sold_to_email k)
     (sold_at k) (sold_price k) (notes k) (created_by k) (created_at k).
Definition set_sold_to_name (v : option string) (k : t) : t :=
  mk (id k) (key_code k) (duration_days k) (status k) (user_id k)
     (activated_email k) (activated_at k) (expires_at k) v (sold_to_email k)
     (sold_at k) (sold_price k) (notes k) (created_by k) (created_at k).
Definition set_sold_to_email (v : option string) (k : t) : t :=
  mk (id k) (key_code k) (duration_days k) (status k) (user_id k)
     (activated_email k) (activated_at k) (expires_at k) (sold_to_name k) v
     (sold_at k) (sold_price k) (notes k) (created_by k) (created_at k).
Definition set_sold_at (v : option datetime) (k : t) : t :=
  mk (id k) (key_code k) (duration_days k) (status k) (user_id k)
     (activated_email k) (activated_at k) (expires_at k) (sold_to_name k)
     (sold_to_email k) v (sold_price k) (notes k) (created_by k) (created_at k).
Definition set_sold_price (v : option Z) (k : t) : t :=
  mk (id k) (key_code k) (duration_days k) (status k) (user_id k)
     (activated_email k) (activated_at k) (expires_at k) (sold_to_name k)
     (sold_to_email k) (sold_at k) v (notes k) (created_by k) (created_at k).
Definition set_notes (v : option string) (k : t) : t :=
  mk (id k) (key_code k) (duration_days k) (status k) (user_id k)
     (activated_email k) (activated_at k) (expires_at k) (sold_to_name k)
     (sold_to_email k) (sold_at k) (sold_price k) v (created_by k) (created_at k).

(** [float(self.sold_price) if self.sold_price else None]: a price of
    zero is reported as [None]. *)
Definition price_json (p : option Z) : jval :=
  match p with
  | Some n => if n =? 0 then JNull else JInt n
  | None => JNull
  end.

Definition to_dict (k : t) : jval :=
  JObj [ ("id", JInt (Zpos (id k)));
         ("key_code", JStr (key_code k));
         ("duration_days", JInt (duration_days k));
         ("status", JStr (status k));
         ("user_id", opt_id (user_id k));
         ("activated_email", opt_str (activated_email k));
         ("activated_at", opt_time (activated_at k));
         ("expires_at", opt_time (expires_at k));
         ("sold_to_name", opt_str (sold_to_name k));
         ("sold_to_email", opt_str (sold_to_email k));
         ("sold_at", opt_time (sold_at k));
         ("sold_price", price_json (sold_price k));
         ("notes", opt_str (notes k));
         ("created_by", opt_id (created_by k));
         ("created_at", JTime (created_at k)) ].

End ActivationKey.

Module Device.

(** [models/device.py].  The table carries the unique constraint
    [uq_device_platform] on [(device_id, platform)]. *)
Record t : Type := mk {
  id : positive;
  user_id : positive;
  device_id : string;
  platform : string;
  trial_started_at : datetime;
  trial_expires_at : datetime;
  created_at : datetime
}.

Definition set_trial_expires_at (v : datetime) (d : t) : t :=
  mk (id d) (user_id d) (device_id d) (platform d) (trial_started_at d) v
     (created_at d).

Definition to_dict (d : t) : jval :=
  JObj [ ("id", JInt (Zpos (id d)));
         ("user_id", JInt (Zpos (user_id d)));
         ("device_id", JStr (device_id d));
         ("platform", JStr (platform d));
         ("trial_started_at", JTime (trial_started_at d));
         ("trial_expires_at", JTime (trial_expires_at d)) ].

End Device.

(** ** The database *)

(** The three tables the core reads and writes, and the sequences that
    number their rows. *)
Record Store : Type := mkStore {
  users : list User.t;
  activation_keys : list ActivationKey.t;
  devices : list Device.t;
  users_id_seq : positive;
  activation_keys_id_seq : positive;
  devices_id_seq : positive
}.

Definition set_users (v : list User.t) (db : Store) : Store :=
  mkStore v (activation_keys db) (devices db)
          (users_id_seq db) (activation_keys_id_seq db) (devices_id_seq db).
Definition set_activation_keys (v : list ActivationKey.t) (db : Store) : Store :=
  mkStore (users db) v (devices db)
          (users_id_seq db) (activation_keys_id_seq db) (devices_id_seq db).

Definition empty_store : Store := mkStore [] [] [] 1 1 1.

Module Query.

(** [Model.query.filter(f).first()], with the position of the row. *)
Definition first_at {A} (f : A -> bool) (rows : list A) : option (nat * A) :=
  list_find (fun r => Is_true (f r)) rows.

Definition first {A} (f : A -> bool) (rows : list A) : option A :=
  snd <$> first_at f rows.

(** [Model.query.get(ident)]: the row with that primary key. *)
Definition has_id {A} (id_of : A -> positive) (ident : Z) (r : A) : bool :=
  Zpos (id_of r) =? ident.

End Query.

(** The result of a handler: its reply, and the database after it. *)
Definition outcome : Type := (reply * Store)%type.

(** A handler that did not reach its commit leaves the database as it was. *)
Definition settle (db : Store) (h : handler outcome) : outcome :=
  match h with
  | inl r => (r, db)
  | inr o => o
  end.

(** [request.get_json()] followed by [if not data: return ... 400]. *)
Definition body_required (data : option json) : handler json :=
  match data with
  | Some (item :: items) => inr (item :: items)
  | _ => inl (error "Request body required" 400)
  end.

(** ** [utils/key_generator.py] *)

Module KeyGenerator.

(* Exclude ambiguous characters: O/0, I/1, L *)
Definition CHARS : string := "ABCDEFGHJKMNPQRSTUVWXYZ23456789".

(** [secrets.choice(seq)]: the element of [seq] at the index the system's
    random source selects; [r] is what the source delivered. *)
Definition choice (r : nat) (seq : string) : ascii :=
  match String.get (r mod String.length seq) seq with
  | Some c => c
  | None => Ascii.zero
  end.

(** One group: [''.join(secrets.choice(CHARS) for _ in range(4))], fed by
    the draws [pos], [pos + 1], ... of the random source. *)
Definition group (draws : nat -> nat) (pos : nat) : string :=
  string_of_list_ascii
    (map (fun i => choice (draws (pos + i)%nat) CHARS) (seq 0 4)).

(** Generate a key like XXXX-XXXX-XXXX-XXXX. *)
Definition generate_activation_key (draws : nat -> nat) (pos : nat) : string :=
  let groups := map (fun g => group draws (pos + 4 * g)%nat) (seq 0 4) in
  join "-" groups.

End KeyGenerator.

(** ** Filters of the queries *)

Definition opt_id_is (o : option positive) (ident : Z) : bool :=
  match o with Some p => Zpos p =? ident | None => false end.

Definition later_than (now : datetime) (o : option datetime) : bool :=
  match o with Some t => now <? t | None => false end.

(** [ActivationKey.user_id == uid, ActivationKey.status == 'activated',
    ActivationKey.expires_at > now]. *)
Definition active_key_of (uid : Z) (now : datetime) (k : ActivationKey.t) : bool :=
  opt_id_is (ActivationKey.user_id k) uid
  && String.eqb (ActivationKey.status k) "activated"
  && later_than now (ActivationKey.expires_at k).

(** [ActivationKey.user_id == uid, ActivationKey.status == 'activated']. *)
Definition activated_key_of (uid : Z) (k : ActivationKey.t) : bool :=
  opt_id_is (ActivationKey.user_id k) uid
  && String.eqb (ActivationKey.status k) "activated".

(** [Device.user_id == uid, Device.trial_expires_at > now]. *)
Definition active_trial_of (uid : Z) (now : datetime) (d : Device.t) : bool :=
  (Zpos (Device.user_id d) =? uid) && (now <? Device.trial_expires_at d).

(** [filter_by(device_id=device_id, platform=platform)]. *)
Definition same_device (device_id platform : string) (d : Device.t) : bool :=
  String.eqb (Device.device_id d) device_id
  && String.eqb (Device.platform d) platform.

(** A string or an integer handed to the database as a query or column
    value. *)
Definition db_str (v : jval) : handler string :=
  match v with JStr s => inr s | _ => inl (Raised DataError) end.

Definition db_int (v : jval) : handler Z :=
  match v with JInt n => inr n | _ => inl (Raised DataError) end.

Definition db_numeric (v : jval) : handler (option Z) :=
  match v with
  | JInt n => inr (Some n)
  | JNull => inr None
  | _ => inl (Raised DataError)
  end.

(** The unique constraints, checked when a row is inserted. *)
Definition insert_device (d : Device.t) (db : Store) : handler Store :=
  if bool_decide
       ((Device.device_id d, Device.platform d)
          ∈ map (fun r => (Device.device_id r, Device.platform r)) (devices db))
  then inl (Raised IntegrityError)
  else inr (mkStore (users db) (activation_keys db) (devices db ++ [d])
                    (users_id_seq db) (activation_keys_id_seq db)
                    (Pos.succ (devices_id_seq db))).

Definition insert_key (k : ActivationKey.t) (db : Store) : handler Store :=
  if bool_decide
       (ActivationKey.key_code k ∈ map ActivationKey.key_code (activation_keys db))
  then inl (Raised IntegrityError)
  else inr (mkStore (users db) (activation_keys db ++ [k]) (devices db)
                    (users_id_seq db) (Pos.succ (activation_keys_id_seq db))
                    (devices_id_seq db)).

Fixpoint insert_keys (ks : list ActivationKey.t) (db : Store) : handler Store :=
  match ks with
  | [] => inr db
  | k :: ks' => db' <- insert_key k db ;; insert_keys ks' db'
  end.

Definition TRIAL_DURATION_DAYS : Z := 3.

(** Functions of modules that are not among the sources: [User.to_dict]
    ([models/user.py]), the validators ([utils/validators.py]), the password
    hashing of werkzeug, the token issuer of flask_jwt_extended, and
    Python's [int] applied to a [str] ([None] for [ValueError]). *)
Class Externals : Type := {
  User_to_dict : User.t -> jval;
  validate_email : string -> bool;
  validate_password : string -> bool;
  generate_password_hash : string -> string;
  check_password_hash : string -> string -> bool;
  create_access_token : positive -> string;
  create_refresh_token : positive -> string;
  int_of_str : string -> option Z
}.

Section Server.

Context `{Externals}.

(** *** [middleware/auth_required.py] *)

(** [identity] is the subject of the verified token, [None] when
    [verify_jwt_in_request()] rejects the request. *)
Definition jwt_required_custom (fn : User.t -> Store -> outcome)
    (identity : option Z) (db : Store) : outcome :=
  match identity with
  | None => (Raised NoAuthorizationError, db)
  | Some user_id =>
      match Query.first (Query.has_id User.id user_id) (users db) with
      | None => (error "User not found" 404, db)
      | Some user =>
          if negb (User.is_active user) then (error "Account disabled" 403, db)
          else fn user db
      end
  end.

Definition admin_required (fn : User.t -> Store -> outcome)
    (identity : option Z) (db : Store) : outcome :=
  match identity with
  | None => (Raised NoAuthorizationError, db)
  | Some user_id =>
      match Query.first (Query.has_id User.id user_id) (users db) with
      | None => (error "User not found" 404, db)
      | Some user =>
          if negb (User.is_active user) then (error "Account disabled" 403, db)
          else if negb (User.is_admin user)
               then (error "Admin access required" 403, db)
               else fn user db
      end
  end.

(** *** The entitlement evaluator, [routes/auth.py] *)

(** [a - now] for a nullable column [a]. *)
Definition minus_now (a : option datetime) (now : datetime) : handler timedelta :=
  match a with
  | Some t => inr (t - now)
  | None => inl (Raised TypeError)
  end.

(** Get activation status for a user (account-based, not device-based). *)
Definition _get_activation_status (user : User.t) (now : datetime) (db : Store)
    : handler jval :=
  if User.is_admin user
  then inr (JObj [("status", JStr "active"); ("days_remaining", JInt 999)])
  else
    (* Check for active activation key *)
    match Query.first (active_key_of (Zpos (User.id user)) now) (activation_keys db) with
    | Some active_key =>
        left_ <- minus_now (ActivationKey.expires_at active_key) now ;;
        let days_remaining := td_days left_ in
        inr (JObj [ ("status", JStr "active");
                    ("key_code", JStr (ActivationKey.key_code active_key));
                    ("email", opt_str (ActivationKey.activated_email active_key));
                    ("activated_at", opt_time (ActivationKey.activated_at active_key));
                    ("expires_at", opt_time (ActivationKey.expires_at active_key));
                    ("days_remaining", JInt (Z.max 0 days_remaining)) ])
    | None =>
        (* Check for active trial on any device of this user *)
        match Query.first (active_trial_of (Zpos (User.id user)) now) (devices db) with
        | Some active_trial =>
            let left_ := Device.trial_expires_at active_trial - now in
            let days_remaining := td_days left_ in
            let hours_remaining := td_seconds left_ / 3600 in
            inr (JObj [ ("status", JStr "trial");
                        ("expires_at", JTime (Device.trial_expires_at active_trial));
                        ("days_remaining", JInt (Z.max 0 days_remaining));
                        ("hours_remaining", JInt hours_remaining) ])
        | None =>
            inr (JObj [("status", JStr "expired"); ("days_remaining", JInt 0)])
        end
    end.

(** *** [routes/activation.py] *)

(** Check activation status for the current user's account. *)
Definition status (now : datetime) (user : User.t) (db : Store) : outcome :=
  settle db (
    (* Check for active activation key (account-based) *)
    match Query.first (active_key_of (Zpos (User.id user)) now) (activation_keys db) with
    | Some active_key =>
        left_ <- minus_now (ActivationKey.expires_at active_key) now ;;
        let days_remaining := td_days left_ in
        inr (Response
               (JObj [ ("status", JStr "active");
                       ("key_code", JStr (ActivationKey.key_code active_key));
                       ("email", opt_str (ActivationKey.activated_email active_key));
                       ("activated_at", opt_time (ActivationKey.activated_at active_key));
                       ("expires_at", opt_time (ActivationKey.expires_at active_key));
                       ("days_remaining", JInt (Z.max 0 days_remaining)) ])
               200, db)
    | None =>
        (* Check for active trial on any device *)
        match Query.first (active_trial_of (Zpos (User.id user)) now) (devices db) with
        | Some active_trial =>
            let days_remaining :=
              td_days (Device.trial_expires_at active_trial - now) in
            inr (Response
                   (JObj [ ("status", JStr "trial");
                           ("expires_at", JTime (Device.trial_expires_at active_trial));
                           ("days_remaining", JInt (Z.max 0 days_remaining)) ])
                   200, db)
        | None =>
            inr (Response
                   (JObj [("status", JStr "expired"); ("days_remaining", JInt 0)])
                   200, db)
        end
    end).

(** The assignments of a redemption: [key.user_id = user.id], ...,
    [key.status = 'activated']. *)
Definition redeem (user : User.t) (now : datetime) (key : ActivationKey.t)
    : ActivationKey.t :=
  key |> ActivationKey.set_user_id (Some (User.id user))
      |> ActivationKey.set_activated_email (Some (User.email user))
      |> ActivationKey.set_activated_at (Some now)
      |> ActivationKey.set_expires_at
           (Some (now + days_delta (ActivationKey.duration_days key)))
      |> ActivationKey.set_status "activated".

(** The checks of [activate] on the request body; what remains is the
    canonical key code. *)
Definition requested_key_code (data : option json) : handler string :=
  data <- body_required data ;;
  raw <- as_str (get data "key_code" (JStr "")) ;;
  let key_code := upper (strip raw) in
  return_if (String.eqb key_code "") (error "Key code is required" 400) ;;;
  inr key_code.

(** Activate a key for the current user's account. *)
Definition activate (data : option json) (now : datetime) (user : User.t)
    (db : Store) : outcome :=
  settle db (
    key_code <- requested_key_code data ;;
    (* Find the key *)
    match Query.first_at (fun k => String.eqb (ActivationKey.key_code k) key_code)
                         (activation_keys db) with
    | None => inl (error "Invalid activation key" 404)
    | Some (i, key) =>
        return_if (String.eqb (ActivationKey.status key) "activated")
                  (error "This key has already been activated" 409) ;;;
        return_if (String.eqb (ActivationKey.status key) "revoked")
                  (error "This key has been revoked" 409) ;;;
        return_if (negb (String.eqb (ActivationKey.status key) "available"
                         || String.eqb (ActivationKey.status key) "sold"))
                  (error "This key cannot be activated" 400) ;;;
        (* Check if user already has an active key *)
        let existing_active :=
          Query.first (active_key_of (Zpos (User.id user)) now) (activation_keys db) in
        (* Activate the key (account-based) *)
        let key := redeem user now key in
        let db := set_activation_keys (<[i := key]> (activation_keys db)) db in
        inr (Response
               (JObj [ ("message", JStr "Key activated successfully");
                       ("activation",
                        JObj [ ("status", JStr "active");
                               ("key_code", JStr (ActivationKey.key_code key));
                               ("email", opt_str (ActivationKey.activated_email key));
                               ("activated_at", opt_time (ActivationKey.activated_at key));
                               ("expires_at", opt_time (ActivationKey.expires_at key));
                               ("days_remaining", JInt (ActivationKey.duration_days key)) ]) ])
               200, db)
    end).

(** Check if a device has already used its trial (no auth required). *)
Definition check_device (data : option json) (db : Store) : outcome :=
  settle db (
    data <- body_required data ;;
    let device_id := get data "device_id" (JStr "") in
    let platform := get data "platform" (JStr "android") in
    return_if (negb (truthy device_id)) (error "device_id is required" 400) ;;;
    device_id <- db_str device_id ;;
    platform <- db_str platform ;;
    let existing := Query.first (same_device device_id platform) (devices db) in
    inr (Response
           (JObj [("trial_used",
                   JBool (match existing with Some _ => true | None => false end))])
           200, db)).

(** *** [routes/auth.py] *)

(** A password reaches the validator and the hash functions as a [str]. *)
Definition as_text (v : jval) : handler string :=
  match v with JStr s => inr s | _ => inl (Raised TypeError) end.

(** The body of the responses of [register] and [login]; the activation
    block is evaluated on the database after the commit. *)
Definition session_reply (user : User.t) (code : Z) (now : datetime) (db : Store)
    : outcome :=
  settle db (
    activation <- _get_activation_status user now db ;;
    inr (Response
           (JObj [ ("user", User_to_dict user);
                   ("access_token", JStr (create_access_token (User.id user)));
                   ("refresh_token", JStr (create_refresh_token (User.id user)));
                   ("activation", activation) ])
           code, db)).

(** The checks of [register] on the request body alone; what remains is
    the email, the password, the device identifier and the platform. *)
Definition registration_form (data : option json)
    : handler (string * string * jval * jval) :=
  data <- body_required data ;;
  raw <- as_str (get data "email" (JStr "")) ;;
  let email := lower (strip raw) in
  let password := get data "password" (JStr "") in
  let device_id := get data "device_id" (JStr "") in
  let platform := get data "platform" (JStr "android") in
  return_if (String.eqb email "" || negb (truthy password) || negb (truthy device_id))
            (error "Email, password, and device_id are required" 400) ;;;
  return_if (negb (validate_email email)) (error "Invalid email format" 400) ;;;
  password <- as_text password ;;
  return_if (negb (validate_password password))
            (error "Password must be at least 6 characters" 400) ;;;
  return_if (negb (eq_str platform "android" || eq_str platform "web"))
            (error "Platform must be android or web" 400) ;;;
  inr (email, password, device_id, platform).

Definition register (data : option json) (now : datetime) (db : Store) : outcome :=
  settle db (
    form <- registration_form data ;;
    let '(email, password, device_id, platform) := form in
    (* Check email uniqueness *)
    return_if (match Query.first (fun u => String.eqb (User.email u) email) (users db) with
               | Some _ => true
               | None => false
               end)
              (error "Email already registered" 409) ;;;
    (* Check device trial *)
    device_id <- db_str device_id ;;
    platform <- db_str platform ;;
    match Query.first (same_device device_id platform) (devices db) with
    | Some existing_device =>
        inl (Response
               (JObj [ ("error", JStr "This device has already been used for a trial period");
                       ("trial_used", JBool true) ])
               409)
    | None =>
        (* Create user *)
        let user :=
          User.mk (users_id_seq db) email (generate_password_hash password)
                  true false now in
        let db1 :=
          mkStore (users db ++ [user]) (activation_keys db) (devices db)
                  (Pos.succ (users_id_seq db)) (activation_keys_id_seq db)
                  (devices_id_seq db) in
        (* Create device with trial *)
        let trial_days := TRIAL_DURATION_DAYS in
        let device :=
          Device.mk (devices_id_seq db1) (User.id user) device_id platform
                    now (now + days_delta trial_days) now in
        db2 <- insert_device device db1 ;;
        inr (session_reply user 201 now db2)
    end).

Definition login (data : option json) (now : datetime) (db : Store) : outcome :=
  settle db (
    data <- body_required data ;;
    raw <- as_str (get data "email" (JStr "")) ;;
    let email := lower (strip raw) in
    let password := get data "password" (JStr "") in
    let device_id := get data "device_id" (JStr "") in
    let platform := get data "platform" (JStr "android") in
    return_if (String.eqb email "" || negb (truthy password))
              (error "Email and password are required" 400) ;;;
    match Query.first (fun u => String.eqb (User.email u) email) (users db) with
    | None => inl (error "Invalid email or password" 401)
    | Some user =>
        password <- as_text password ;;
        return_if (negb (check_password_hash (User.password_hash user) password))
                  (error "Invalid email or password" 401) ;;;
        return_if (negb (User.is_active user)) (error "Account disabled" 403) ;;;
        (* Register device if new (but don't create a trial - trial is only
           on registration) *)
        db1 <- (if truthy device_id && truthy platform
                then
                  device_id <- db_str device_id ;;
                  platform <- db_str platform ;;
                  match Query.first
                          (fun d => Pos.eqb (Device.user_id d) (User.id user)
                                    && same_device device_id platform d)
                          (devices db) with
                  | Some existing_device => inr db
                  | None =>
                      (* Just track the device, no new trial *)
                      let device :=
                        Device.mk (devices_id_seq db) (User.id user) device_id
                                  platform now now now in
                      insert_device device db
                  end
                else inr db) ;;
        inr (session_reply user 200 now db1)
    end).

Definition me (now : datetime) (user : User.t) (db : Store) : outcome :=
  settle db (
    activation <- _get_activation_status user now db ;;
    inr (Response
           (JObj [("user", User_to_dict user); ("activation", activation)])
           200, db)).

(** [POST /auth/refresh], under [jwt_required(refresh=True)]: [identity]
    is the subject of the verified refresh token. *)
Definition refresh (identity : option Z) (db : Store) : outcome :=
  match identity with
  | None => (Raised NoAuthorizationError, db)
  | Some user_id =>
      match Query.first (Query.has_id User.id user_id) (users db) with
      | Some user =>
          if negb (User.is_active user) then (error "Account disabled" 403, db)
          else (Response
                  (JObj [("access_token", JStr (create_access_token (User.id user)))])
                  200, db)
      | None => (error "Account disabled" 403, db)
      end
  end.

(** *** [routes/admin.py] *)

Definition update_user (user_id : Z) (data : option json) (admin : User.t)
    (db : Store) : outcome :=
  settle db (
    return_if (user_id =? 1) (error "User not found" 404) ;;;
    match Query.first_at (Query.has_id User.id user_id) (users db) with
    | None => inl (error "User not found" 404)
    | Some (i, target) =>
        data <- body_required data ;;
        let target :=
          match lookup_key data "is_active" with
          | Some v => User.set_is_active (truthy v) target
          | None => target
          end in
        let target :=
          match lookup_key data "is_admin" with
          | Some v => User.set_is_admin (truthy v) target
          | None => target
          end in
        target <- match lookup_key data "password" with
                  | Some v =>
                      raw <- as_str v ;;
                      let new_password := strip raw in
                      return_if (Nat.ltb (String.length new_password) 6)
                                (error "Password must be at least 6 characters" 400) ;;;
                      inr (User.set_password_hash
                             (generate_password_hash new_password) target)
                  | None => inr target
                  end ;;
        inr (Response (User_to_dict target) 200,
             set_users (<[i := target]> (users db)) db)
    end).

(** [if not days or days < 1]. *)
Definition positive_days (days : jval) : handler Z :=
  if negb (truthy days) then inl (error "days must be a positive number" 400)
  else match as_int days with
       | None => inl (Raised TypeError)
       | Some n =>
           if n <? 1 then inl (error "days must be a positive number" 400)
           else inr n
       end.

(** The two branches of [extend_license] on the key it found. *)
Definition extend (days : Z) (now : datetime) (key : ActivationKey.t)
    : ActivationKey.t :=
  match ActivationKey.expires_at key with
  | Some expires_at =>
      if now <? expires_at
      then
        (* Key still active - add days to current expires_at *)
        key |> ActivationKey.set_expires_at (Some (expires_at + days_delta days))
            |> ActivationKey.set_duration_days (ActivationKey.duration_days key + days)
      else
        (* Key expired - restart from now *)
        key |> ActivationKey.set_activated_at (Some now)
            |> ActivationKey.set_expires_at (Some (now + days_delta days))
            |> ActivationKey.set_duration_days days
  | None =>
      key |> ActivationKey.set_activated_at (Some now)
          |> ActivationKey.set_expires_at (Some (now + days_delta days))
          |> ActivationKey.set_duration_days days
  end.

(** Extend user's active key by N days. If expired, restart from now. *)
Definition extend_license (user_id : Z) (data : option json) (now : datetime)
    (admin : User.t) (db : Store) : outcome :=
  settle db (
    return_if (user_id =? 1) (error "User not found" 404) ;;;
    match Query.first (Query.has_id User.id user_id) (users db) with
    | None => inl (error "User not found" 404)
    | Some target =>
        data <- body_required data ;;
        let days := get data "days" (JInt 0) in
        n <- positive_days days ;;
        (* Find activated key for this user *)
        match Query.first_at (activated_key_of user_id) (activation_keys db) with
        | None => inl (error "User has no activated key" 404)
        | Some (i, key) =>
            let key := extend n now key in
            inr (Response
                   (JObj [ ("message",
                            JStr ("License extended by " +:+ fmt days +:+ " days"));
                           ("key", ActivationKey.to_dict key) ])
                   200,
                 set_activation_keys (<[i := key]> (activation_keys db)) db)
        end
    end).

(** Admin assigns an available/sold key to a specific user. *)
Definition assign_key (user_id : Z) (data : option json) (now : datetime)
    (admin : User.t) (db : Store) : outcome :=
  settle db (
    return_if (user_id =? 1) (error "User not found" 404) ;;;
    match Query.first (Query.has_id User.id user_id) (users db) with
    | None => inl (error "User not found" 404)
    | Some target =>
        data <- body_required data ;;
        let key_id := get data "key_id" JNull in
        return_if (negb (truthy key_id)) (error "key_id is required" 400) ;;;
        key_id <- db_int key_id ;;
        match Query.first_at (Query.has_id ActivationKey.id key_id)
                             (activation_keys db) with
        | None => inl (error "Key not found" 404)
        | Some (i, key) =>
            return_if (negb (String.eqb (ActivationKey.status key) "available"
                             || String.eqb (ActivationKey.status key) "sold"))
                      (error "Ключ уже использован или отозван" 400) ;;;
            let key := redeem target now key in
            inr (Response
                   (JObj [ ("message", JStr "Ключ успешно назначен");
                           ("key", ActivationKey.to_dict key) ])
                   200,
                 set_activation_keys (<[i := key]> (activation_keys db)) db)
        end
    end).

(** The loop of [generate_keys]: [n] rows, the next one numbered
    [next_id] and coded from the draws that start at [pos]. *)
Fixpoint generate_loop (n : nat) (draws : nat -> nat) (pos : nat)
    (next_id : positive) (duration_days : Z) (initial_status : string)
    (sold_to_name sold_to_email : option string) (sold_at : option datetime)
    (sold_price : option Z) (notes : option string) (created_by : positive)
    (now : datetime) : list ActivationKey.t :=
  match n with
  | O => []
  | S n' =>
      ActivationKey.mk next_id (KeyGenerator.generate_activation_key draws pos)
                       duration_days initial_status None None None None
                       sold_to_name sold_to_email sold_at sold_price notes
                       (Some created_by) now
      :: generate_loop n' draws (pos + 16) (Pos.succ next_id) duration_days
           initial_status sold_to_name sold_to_email sold_at sold_price notes
           created_by now
  end.

(** [data.get(k, '').strip() or None]. *)
Definition stripped_or_None (data : json) (k : string) : handler (option string) :=
  raw <- as_str (get data k (JStr "")) ;;
  inr (or_None (strip raw)).

(** [generate_keys] up to its commit: the rows added to the session. *)
Definition generated_rows (data : option json) (draws : nat -> nat)
    (now : datetime) (admin_user : User.t) (db : Store)
    : handler (list ActivationKey.t) :=
    data <- body_required data ;;
    let count := get data "count" (JInt 1) in
    count <- match as_int count with
             | Some n => inr (Z.min (Z.max 1 n) 100)  (* 1-100 keys at a time *)
             | None => inl (Raised TypeError)
             end ;;
    let duration_days := get data "duration_days" (JInt 365) in
    sold_to_name <- stripped_or_None data "sold_to_name" ;;
    sold_to_email <- stripped_or_None data "sold_to_email" ;;
    let sold_price := get data "sold_price" JNull in
    notes <- stripped_or_None data "notes" ;;
    (* If sold_to info provided, mark as sold immediately *)
    let sold := opt_truthy sold_to_name || opt_truthy sold_to_email in
    let initial_status := if sold then "sold" else "available" in
    let sold_at := if sold then Some now else None in
    (* the column values are bound when the rows are written *)
    duration_days <- db_int duration_days ;;
    sold_price <- db_numeric sold_price ;;
    let keys :=
      generate_loop (Z.to_nat count) draws 0 (activation_keys_id_seq db)
                    duration_days initial_status sold_to_name sold_to_email
                    sold_at sold_price notes (User.id admin_user) now in
    inr keys.

Definition generate_keys (data : option json) (draws : nat -> nat)
    (now : datetime) (admin_user : User.t) (db : Store) : outcome :=
  settle db (
    keys <- generated_rows data draws now admin_user db ;;
    db' <- insert_keys keys db ;;
    inr (Response
           (JObj [ ("message",
                    JStr (str_of_int (Z.of_nat (length keys)) +:+ " key(s) generated"));
                   ("keys", JArr (map ActivationKey.to_dict keys)) ])
           201, db')).

(** [Device.query.filter(Device.user_id == uid,
    Device.trial_expires_at > now).update({Device.trial_expires_at: now})]. *)
Definition expire_trials (uid : positive) (now : datetime) (ds : list Device.t)
    : list Device.t :=
  map (fun d => if active_trial_of (Zpos uid) now d
                then Device.set_trial_expires_at now d
                else d) ds.

Definition revoke (key : ActivationKey.t) : ActivationKey.t :=
  key |> ActivationKey.set_status "revoked"
      |> ActivationKey.set_user_id None
      |> ActivationKey.set_activated_email None
      |> ActivationKey.set_activated_at None
      |> ActivationKey.set_expires_at None.

(** The block [if 'status' in data: ...] of [update_key]. *)
Definition update_key_status (data : json) (now : datetime)
    (key : ActivationKey.t) (ds : list Device.t)
    : ActivationKey.t * list Device.t :=
  match lookup_key data "status" with
  | Some new_status =>
      if eq_str new_status "revoked"
      then
        (* Expire all trials for the user so they become fully expired *)
        let ds := match ActivationKey.user_id key with
                  | Some uid => expire_trials uid now ds
                  | None => ds
                  end in
        (revoke key, ds)
      else if eq_str new_status "sold"
              && String.eqb (ActivationKey.status key) "available"
      then (key |> ActivationKey.set_status "sold"
                |> ActivationKey.set_sold_at (Some now), ds)
      else (key, ds)
  | None => (key, ds)
  end.

(** [if k in data: set(key, data[k].strip() or None)]. *)
Definition update_text (data : json) (k : string)
    (set : option string -> ActivationKey.t -> ActivationKey.t)
    (key : ActivationKey.t) : handler ActivationKey.t :=
  match lookup_key data k with
  | Some v => raw <- as_str v ;; inr (set (or_None (strip raw)) key)
  | None => inr key
  end.

(** [int(v)]. *)
Definition py_int (v : jval) : handler Z :=
  match v with
  | JInt n => inr n
  | JBool b => inr (if b then 1 else 0)
  | JStr s => match int_of_str s with
              | Some n => inr n
              | None => inl (Raised ValueError)
              end
  | _ => inl (Raised TypeError)
  end.

(** The block [if 'duration_days' in data: ...] of [update_key]. *)
Definition update_key_duration (data : json) (key : ActivationKey.t)
    : handler ActivationKey.t :=
  match lookup_key data "duration_days" with
  | Some v =>
      new_duration <- py_int v ;;
      let key := ActivationKey.set_duration_days new_duration key in
      (* Recalculate expires_at for activated keys *)
      inr (if String.eqb (ActivationKey.status key) "activated"
           then match ActivationKey.activated_at key with
                | Some activated_at =>
                    ActivationKey.set_expires_at
                      (Some (activated_at + days_delta new_duration)) key
                | None => key
                end
           else key)
  | None => inr key
  end.

Definition update_key (key_id : Z) (data : option json) (now : datetime)
    (user : User.t) (db : Store) : outcome :=
  settle db (
    match Query.first_at (Query.has_id ActivationKey.id key_id) (activation_keys db) with
    | None => inl (error "Key not found" 404)
    | Some (i, key) =>
        data <- body_required data ;;
        let (key, ds) := update_key_status data now key (devices db) in
        key <- update_text data "sold_to_name" ActivationKey.set_sold_to_name key ;;
        key <- update_text data "sold_to_email" ActivationKey.set_sold_to_email key ;;
        let sold_price := lookup_key data "sold_price" in
        key <- update_text data "notes" ActivationKey.set_notes key ;;
        key <- update_key_duration data key ;;
        (* the price is bound when the row is written *)
        key <- match sold_price with
               | Some v =>
                   price <- db_numeric v ;;
                   inr (ActivationKey.set_sold_price price key)
               | None => inr key
               end ;;
        inr (Response (ActivationKey.to_dict key) 200,
             mkStore (users db) (<[i := key]> (activation_keys db)) ds
                     (users_id_seq db) (activation_keys_id_seq db)
                     (devices_id_seq db))
    end).

Definition delete_key (key_id : Z) (user : User.t) (db : Store) : outcome :=
  settle db (
    match Query.first_at (Query.has_id ActivationKey.id key_id) (activation_keys db) with
    | None => inl (error "Key not found" 404)
    | Some (i, key) =>
        inr (Response (JObj [("message", JStr "Key deleted")]) 200,
             set_activation_keys (delete i (activation_keys db)) db)
    end).

(** The block "Compute activation status" of [get_user] (the same block
    serves [list_users]): the entries [activation_status] and
    [activation_expires] set on the dict of the user. *)
Definition activation_entries (target : User.t) (now : datetime) (db : Store)
    : handler (jval * jval) :=
  if User.is_admin target then inr (JStr "active", JNull)
  else
    match Query.first (active_key_of (Zpos (User.id target)) now) (activation_keys db) with
    | Some active_key =>
        match ActivationKey.expires_at active_key with
        | Some expires_at => inr (JStr "active", JTime expires_at)
        | None => inl (Raised AttributeError)
        end
    | None =>
        match Query.first (active_trial_of (Zpos (User.id target)) now) (devices db) with
        | Some trial => inr (JStr "trial", JTime (Device.trial_expires_at trial))
        | None => inr (JStr "expired", JNull)
        end
    end.

(** [GET /admin/users/<user_id>].  The model [ProductDatabase] is not among
    the sources: [databases] stands for the dicts of the databases of the
    user. *)
Definition get_user (user_id : Z) (databases : list jval) (now : datetime)
    (admin : User.t) (db : Store) : outcome :=
  settle db (
    return_if (user_id =? 1) (error "User not found" 404) ;;;
    match Query.first (Query.has_id User.id user_id) (users db) with
    | None => inl (error "User not found" 404)
    | Some target =>
        let devices :=
          filter (fun d => Zpos (Device.user_id d) = user_id) (devices db) in
        let keys :=
          filter (fun k => Is_true (opt_id_is (ActivationKey.user_id k) user_id))
                 (activation_keys db) in
        (* Compute activation status *)
        let user_dict := items_of (User_to_dict target) in
        entries <- activation_entries target now db ;;
        let user_dict := setitem user_dict "activation_status" (fst entries) in
        let user_dict := setitem user_dict "activation_expires" (snd entries) in
        inr (Response
               (JObj [ ("user", JObj user_dict);
                       ("devices", JArr (map Device.to_dict devices));
                       ("activation_keys", JArr (map ActivationKey.to_dict keys));
                       ("databases", JArr databases) ])
               200, db)
    end).

(** *** [app/__init__.py] *)

(** The CLI command [create-admin]: create initial admin account. *)
Definition create_admin (email password : string) (now : datetime) (db : Store)
    : Store :=
  match Query.first_at (fun u => String.eqb (User.email u) email) (users db) with
  | Some (i, existing) =>
      set_users (<[i := User.set_is_admin true existing]> (users db)) db
  | None =>
      let admin :=
        User.mk (users_id_seq db) email (generate_password_hash password)
                true true now in
      mkStore (users db ++ [admin]) (activation_keys db) (devices db)
              (Pos.succ (users_id_seq db)) (activation_keys_id_seq db)
              (devices_id_seq db)
  end.

(** The routes of the blueprints registered by [create_app], each with what
    the request carries: the subject of its token, the identifier in its
    URL, its JSON body, and for key generation the draws of the random
    source. *)
Inductive request : Type :=
| AuthRegister (data : option json)
| AuthLogin (data : option json)
| AuthMe (identity : option Z)
| ActivationStatus (identity : option Z)
| ActivationActivate (identity : option Z) (data : option json)
| ActivationCheckDevice (data : option json)
| AdminUpdateUser (identity : option Z) (user_id : Z) (data : option json)
| AdminExtendLicense (identity : option Z) (user_id : Z) (data : option json)
| AdminAssignKey (identity : option Z) (user_id : Z) (data : option json)
| AdminGenerateKeys (identity : option Z) (data : option json) (draws : nat -> nat)
| AdminUpdateKey (identity : option Z) (key_id : Z) (data : option json)
| AdminDeleteKey (identity : option Z) (key_id : Z).

Definition dispatch (req : request) (now : datetime) (db : Store) : outcome :=
  match req with
  | AuthRegister data => register data now db
  | AuthLogin data => login data now db
  | AuthMe identity => jwt_required_custom (me now) identity db
  | ActivationStatus identity => jwt_required_custom (status now) identity db
  | ActivationActivate identity data =>
      jwt_required_custom (activate data now) identity db
  | ActivationCheckDevice data => check_device data db
  | AdminUpdateUser identity user_id data =>
      admin_required (update_user user_id data) identity db
  | AdminExtendLicense identity user_id data =>
      admin_required (extend_license user_id data now) identity db
  | AdminAssignKey identity user_id data =>
      admin_required (assign_key user_id data now) identity db
  | AdminGenerateKeys identity data draws =>
      admin_required (generate_keys data draws now) identity db
  | AdminUpdateKey identity key_id data =>
      admin_required (update_key key_id data now) identity db
  | AdminDeleteKey identity key_id =>
      admin_required (delete_key key_id) identity db
  end.

(** The decorator of each route: the identity it resolves, for the routes
    under [jwt_required_custom] or [admin_required], and whether the route
    is for admins only. *)
Definition caller_of (req : request) : option (option Z) :=
  match req with
  | AuthRegister _ | AuthLogin _ | ActivationCheckDevice _ => None
  | AuthMe identity | ActivationStatus identity
  | ActivationActivate identity _
  | AdminUpdateUser identity _ _ | AdminExtendLicense identity _ _
  | AdminAssignKey identity _ _ | AdminGenerateKeys identity _ _
  | AdminUpdateKey identity _ _ | AdminDeleteKey identity _ => Some identity
  end.

Definition admin_only (req : request) : bool :=
  match req with
  | AdminUpdateUser _ _ _ | AdminExtendLicense _ _ _ | AdminAssignKey _ _ _
  | AdminGenerateKeys _ _ _ | AdminUpdateKey _ _ _ | AdminDeleteKey _ _ => true
  | _ => false
  end.

(** A request is let through by its decorator when its token names an
    active user, who is an admin if the route asks for one. *)
Definition let_through (req : request) (db : Store) : Prop :=
  exists user_id user,
    caller_of req = Some (Some user_id)
    /\ Query.first (Query.has_id User.id user_id) (users db) = Some user
    /\ User.is_active user = true
    /\ (admin_only req = true -> User.is_admin user = true).

(** One operation on the database: a request served at some instant, or
    a run of the CLI command. *)
Inductive step (db : Store) : Store -> Prop :=
| step_request (req : request) (now : datetime) :
    step db (snd (dispatch req now db))
| step_create_admin (email password : string) (now : datetime) :
    step db (create_admin email password now db).

Definition steps : Store -> Store -> Prop := rtc step.

(** ** The properties of the data model *)

(** A key whose redemption fields are filled in and whose expiry is its
    activation instant plus its duration. *)
Definition redemption_recorded (k : ActivationKey.t) : Prop :=
  exists u e a x,
    ActivationKey.user_id k = Some u
    /\ ActivationKey.activated_email k = Some e
    /\ ActivationKey.activated_at k = Some a
    /\ ActivationKey.expires_at k = Some x
    /\ x = a + days_delta (ActivationKey.duration_days k).

(** A key whose redemption fields are filled in and whose expiry lies
    strictly after its activation instant. *)
Definition redemption_window (k : ActivationKey.t) : Prop :=
  exists u e a x,
    ActivationKey.user_id k = Some u
    /\ ActivationKey.activated_email k = Some e
    /\ ActivationKey.activated_at k = Some a
    /\ ActivationKey.expires_at k = Some x
    /\ a < x.

Definition activated_keys_satisfy (P : ActivationKey.t -> Prop) (db : Store) : Prop :=
  forall k, k ∈ activation_keys db -> ActivationKey.status k = "activated" -> P k.

(** What the uniqueness constraint on [key_code] asks of a batch. *)
Definition codes_fresh (ks : list ActivationKey.t) (db : Store) : Prop :=
  NoDup (map ActivationKey.key_code ks)
  /\ forall k, k ∈ ks ->
       ActivationKey.key_code k ∉ map ActivationKey.key_code (activation_keys db).

Definition keys_recorded (db : Store) : Prop :=
  activated_keys_satisfy redemption_recorded db.

(** A change of a key row under which [redemption_recorded] carries over. *)
Definition key_preserves (k k' : ActivationKey.t) : Prop :=
  ActivationKey.status k' = "activated" ->
  (ActivationKey.status k = "activated" -> redemption_recorded k) ->
  redemption_recorded k'.

(** What one operation can do to the tables: nothing; a change of the
    users alone; a change of one key row, with or without the forced expiry
    of the trials of a user; the deletion of a key row; the insertion of a
    batch of keys that are not activated; the insertion of a device, with
    or without a new user. *)
Inductive effect (db : Store) : Store -> Prop :=
| effect_none : effect db db
| effect_users (us : list User.t) (n : positive) :
    effect db (mkStore us (activation_keys db) (devices db)
                       n (activation_keys_id_seq db) (devices_id_seq db))
| effect_key (i : nat) (k k' : ActivationKey.t) (ds : list Device.t) :
    activation_keys db !! i = Some k ->
    key_preserves k k' ->
    (ds = devices db \/ exists uid now, ds = expire_trials uid now (devices db)) ->
    effect db (mkStore (users db) (<[i := k']> (activation_keys db)) ds
                       (users_id_seq db) (activation_keys_id_seq db)
                       (devices_id_seq db))
| effect_delete (i : nat) :
    effect db (set_activation_keys (delete i (activation_keys db)) db)
| effect_rows (rows : list ActivationKey.t) (db' : Store) :
    insert_keys rows db = inr db' ->
    (forall k, k ∈ rows -> ActivationKey.status k <> "activated") ->
    effect db db'
| effect_device (us : list User.t) (n : positive) (d : Device.t) (db' : Store) :
    insert_device d (mkStore us (activation_keys db) (devices db)
                             n (activation_keys_id_seq db) (devices_id_seq db))
      = inr db' ->
    effect db db'.

(** The binding of a device row: its user and its pair. *)
Definition device_binding (d : Device.t) : positive * (string * string) :=
  (Device.user_id d, (Device.device_id d, Device.platform d)).

(** The pair the constraint [uq_device_platform] ranges over. *)
Definition device_pair (d : Device.t) : string * string :=
  (Device.device_id d, Device.platform d).

Definition devices_unique (db : Store) : Prop :=
  NoDup (map device_pair (devices db)).

(** A symbol of a code: one of [CHARS], which is an upper-case letter or a
    digit other than 0, O, 1, I and L. *)
Definition code_symbol (c : ascii) : Prop :=
  c ∈ list_ascii_of_string KeyGenerator.CHARS.

(** A handler under way that, when it stops, stops with a reply in [P]. *)
Definition stops_with {A} (P : reply -> Prop) (h : handler A) : Prop :=
  forall r, h = inl r -> P r.

(** The replies other than the 200 and the 201. *)
Definition refusal (r : reply) : Prop :=
  code_of r <> Some 200 /\ code_of r <> Some 201.

(** A device row whose trial has been cut short, or left as it was:
    nothing but [trial_expires_at] differs, and that is no later. *)
Definition trial_shortened (d d' : Device.t) : Prop :=
  exists t, d' = Device.set_trial_expires_at t d /\ t <= Device.trial_expires_at d.

End Server.

(** ** A scenario

    Concrete users, keys, devices and requests, on which the statements
    below are exercised. *)

Module Scenario.

Definition externals : Externals := {|
  User_to_dict u :=
    JObj [("id", JInt (Zpos (User.id u))); ("email", JStr (User.email u))];
  validate_email s := negb (String.eqb s "");
  validate_password s := Nat.leb 6 (String.length s);
  generate_password_hash s := "hash:" +:+ s;
  check_password_hash h s := String.eqb h ("hash:" +:+ s);
  create_access_token u := "access";
  create_refresh_token u := "refresh";
  int_of_str s := None
|}.

(** Noon of 2024-01-01 and a day length, in microseconds. *)
Definition noon : datetime := 1704110400000000.

Definition root : User.t :=
  User.mk 1 "root@example.com" "hash:secret1" true true 0.
Definition alice : User.t :=
  User.mk 2 "alice@example.com" "hash:secret2" true false 0.
Definition bob : User.t :=
  User.mk 3 "bob@example.com" "hash:secret3" true false 0.

(** A key in the state [available], of the given duration. *)
Definition fresh_key (id : positive) (code : string) (duration_days : Z)
    : ActivationKey.t :=
  ActivationKey.mk id code duration_days "available" None None None None
                   None None None None None (Some 1%positive) 0.

(** A key redeemed by Alice at [noon - 10 days] for 30 days. *)
Definition alice_key : ActivationKey.t :=
  ActivationKey.mk 1 "AAAA-AAAA-AAAA-AAAA" 30 "activated"
                   (Some 2%positive) (Some "alice@example.com")
                   (Some (noon - days_delta 10)) (Some (noon + days_delta 20))
                   None None None None None (Some 1%positive) 0.

(** Alice's device, its trial running until [noon + 2 days]. *)
Definition alice_phone : Device.t :=
  Device.mk 1 2 "phone-1" "android" (noon - days_delta 1) (noon + days_delta 2)
            (noon - days_delta 1).

(** Bob has no device yet; Carol is not registered. *)
Definition db0 : Store :=
  mkStore [root; alice; bob]
          [ alice_key;
            fresh_key 2 "BBBB-BBBB-BBBB-BBBB" 30;
            fresh_key 3 "CCCC-CCCC-CCCC-CCCC" 0 ]
          [alice_phone]
          4 4 2.

(** Request bodies. *)
Definition redeem_A : option json := Some [("key_code", JStr "aaaa-aaaa-aaaa-aaaa")].
Definition redeem_B : option json := Some [("key_code", JStr " bbbb-bbbb-bbbb-bbbb ")].
Definition redeem_C : option json := Some [("key_code", JStr "CCCC-CCCC-CCCC-CCCC")].
Definition ten_days : json := [("days", JInt 10)].
Definition revocation : json := [("status", JStr "revoked")].
Definition zero_days : option json := Some [("duration_days", JInt 0)].
Definition carol_registers : option json :=
  Some [ ("email", JStr "Carol@Example.com"); ("password", JStr "secret4");
         ("device_id", JStr "phone-1"); ("platform", JStr "android") ].
Definition bob_logs_in : option json :=
  Some [ ("email", JStr "bob@example.com"); ("password", JStr "secret3");
         ("device_id", JStr "tablet-7"); ("platform", JStr "web") ].
Definition bob_logs_in_on_alice_phone : option json :=
  Some [ ("email", JStr "bob@example.com"); ("password", JStr "secret3");
         ("device_id", JStr "phone-1"); ("platform", JStr "android") ].
Definition one_key : option json := Some [("count", JInt 1)].
Definition two_keys : option json := Some [("count", JInt 2)].

(** Two random sources: one that always delivers 0, one that counts. *)
Definition stuck : nat -> nat := fun _ => 0%nat.
Definition counting : nat -> nat := fun n => n.

(** A history from the empty database: the admin is created, Alice
    registers, the admin generates one key of 30 days, Alice redeems it at
    [noon], and the admin sets its duration to 0 days. *)
Definition alice_registers : option json :=
  Some [ ("email", JStr "alice@example.com"); ("password", JStr "secret2");
         ("device_id", JStr "phone-1"); ("platform", JStr "android") ].
Definition h1 : Store :=
  create_admin (H := externals) "root@example.com" "secret1" 0 empty_store.
Definition h2 : Store :=
  snd (dispatch (H := externals) (AuthRegister alice_registers) (noon - day) h1).
Definition h3 : Store :=
  snd (dispatch (H := externals)
         (AdminGenerateKeys (Some 1) (Some [("duration_days", JInt 30)]) stuck)
         (noon - day) h2).
Definition h4 : Store :=
  snd (dispatch (H := externals) (ActivationActivate (Some 2) redeem_A) noon h3).
Definition h5 : Store :=
  snd (dispatch (H := externals) (AdminUpdateKey (Some 1) 1 zero_days)
         (noon + day) h4).

(** Further request bodies. *)
Definition disable : json := [("is_active", JBool false)].
Definition five_days : json := [("days", JInt 5)].
Definition fifteen_days : json := [("days", JInt 15)].
Definition key_two : json := [("key_id", JInt 2)].
Definition bob_mistypes : json :=
  [("email", JStr " Bob@Example.com"); ("password", JStr "secret9")].
Definition dave_registers : json :=
  [ ("email", JStr "Dave@Example.com"); ("password", JStr "secret5");
    ("device_id", JStr "phone-9"); ("platform", JStr "android") ].

End Scenario.

(** Membership in a table given by its rows: [in_rows] shows that a row
    is there, [each_row] goes through the rows. *)
Ltac in_rows := repeat (first [apply list_elem_of_here | apply list_elem_of_further]).

Ltac each_row H :=
  repeat (apply elem_of_cons in H as [->|H]); [..|by apply elem_of_nil in H].

(** ** Properties *)

Section Properties.

Context `{Externals}.

(** *** Handlers under way *)

Lemma bind_inr {A B} (m : handler A) (k : A -> handler B) (y : B) :
  Py.bind m k = inr y -> exists x, m = inr x /\ k x = inr y.
Proof. destruct m as [r|x]; simpl; [done|eauto]. Qed.

(** *** Queries *)

Lemma first_at_Some {A} (f : A -> bool) (rows : list A) (i : nat) (x : A) :
  Query.first_at f rows = Some (i, x) <->
  rows !! i = Some x /\ f x = true
  /\ forall j y, rows !! j = Some y -> (j < i)%nat -> f y = false.
Proof.
  unfold Query.first_at. rewrite list_find_Some. split.
  - intros (Hi & Hx & Hlt). split; [done|]. split; [by apply Is_true_true|].
    intros j y Hj Hji. specialize (Hlt j y Hj Hji).
    destruct (f y); [by destruct Hlt|done].
  - intros (Hi & Hx & Hlt). split; [done|]. split; [by apply Is_true_true|].
    intros j y Hj Hji. rewrite (Hlt j y Hj Hji). by intros [].
Qed.

Lemma first_at_None {A} (f : A -> bool) (rows : list A) :
  Query.first_at f rows = None <-> forall x, x ∈ rows -> f x = false.
Proof.
  unfold Query.first_at. rewrite list_find_None, Forall_forall. split.
  - intros Hall x Hx. specialize (Hall x Hx). destruct (f x); [by destruct Hall|done].
  - intros Hall x Hx. rewrite (Hall x Hx). by intros [].
Qed.

Lemma first_Some {A} (f : A -> bool) (rows : list A) (x : A) :
  Query.first f rows = Some x -> x ∈ rows /\ f x = true.
Proof.
  unfold Query.first. destruct (Query.first_at f rows) as [[i y]|] eqn:Hfind; [|done].
  intros [= <-]. apply first_at_Some in Hfind as (Hi & Hy & _).
  split; [by eapply list_elem_of_lookup_2|done].
Qed.

Lemma first_None {A} (f : A -> bool) (rows : list A) :
  Query.first f rows = None <-> forall x, x ∈ rows -> f x = false.
Proof.
  unfold Query.first. rewrite <- first_at_None.
  destruct (Query.first_at f rows) as [[i y]|]; naive_solver.
Qed.

Lemma first_at_found {A} (f : A -> bool) (rows : list A) (x : A) :
  x ∈ rows -> f x = true -> exists i y, Query.first_at f rows = Some (i, y).
Proof.
  intros Hx Hf. destruct (Query.first_at f rows) as [[i y]|] eqn:Hfind; [eauto|].
  rewrite first_at_None in Hfind. rewrite (Hfind x Hx) in Hf. done.
Qed.

Lemma first_found {A} (f : A -> bool) (rows : list A) (x : A) :
  x ∈ rows -> f x = true -> exists y, Query.first f rows = Some y.
Proof.
  intros Hx Hf. destruct (first_at_found f rows x Hx Hf) as (i & y & Hfind).
  exists y. unfold Query.first. by rewrite Hfind.
Qed.

(** *** The filters, in terms of the columns *)

Lemma opt_id_is_true (o : option positive) (p : positive) :
  opt_id_is o (Zpos p) = true <-> o = Some p.
Proof.
  unfold opt_id_is. destruct o as [q|]; [|done].
  rewrite Z.eqb_eq. split; congruence.
Qed.

Lemma later_than_true (now : datetime) (o : option datetime) :
  later_than now o = true <-> exists t, o = Some t /\ now < t.
Proof.
  unfold later_than. destruct o as [t|].
  - rewrite Z.ltb_lt. split; [eauto|]. by intros (t' & [= <-] & Hlt).
  - split; [done|]. by intros (t' & [=] & _).
Qed.

Lemma active_key_of_true (p : positive) (now : datetime) (k : ActivationKey.t) :
  active_key_of (Zpos p) now k = true <->
  ActivationKey.user_id k = Some p
  /\ ActivationKey.status k = "activated"
  /\ exists t, ActivationKey.expires_at k = Some t /\ now < t.
Proof.
  unfold active_key_of.
  rewrite !andb_true_iff, opt_id_is_true, String.eqb_eq, later_than_true.
  tauto.
Qed.

Lemma activated_key_of_true (p : positive) (k : ActivationKey.t) :
  activated_key_of (Zpos p) k = true <->
  ActivationKey.user_id k = Some p /\ ActivationKey.status k = "activated".
Proof.
  unfold activated_key_of.
  by rewrite andb_true_iff, opt_id_is_true, String.eqb_eq.
Qed.

Lemma active_trial_of_true (p : positive) (now : datetime) (d : Device.t) :
  active_trial_of (Zpos p) now d = true <->
  Device.user_id d = p /\ now < Device.trial_expires_at d.
Proof.
  unfold active_trial_of. rewrite andb_true_iff, Z.eqb_eq, Z.ltb_lt.
  split; intros [? ?]; split; congruence.
Qed.

Lemma same_device_true (device_id platform : string) (d : Device.t) :
  same_device device_id platform d = true <-> device_pair d = (device_id, platform).
Proof.
  unfold same_device, device_pair. rewrite andb_true_iff, !String.eqb_eq.
  split; [intros [-> ->]; done | intros [= -> ->]; done].
Qed.

(** *** The entitlement evaluator *)


(** C1.  For an admin user [_get_activation_status] answers 'active'
    whatever the keys and devices are; the handler [status] of
    [GET /activation/status] has no admin case and, for an admin who holds
    neither an unexpired activated key nor a running trial, answers
    'expired'. *)
Theorem status_ignores_admin (user : User.t) (now : datetime) (db : Store) :
  User.is_admin user = true ->
  (forall k, k ∈ activation_keys db ->
             active_key_of (Zpos (User.id user)) now k = false) ->
  (forall d, d ∈ devices db ->
             active_trial_of (Zpos (User.id user)) now d = false) ->
  (exists body,
     _get_activation_status user now db = inr body
     /\ item body "status" = Some (JStr "active"))
  /\ (exists body,
        status now user db = (Response body 200, db)
        /\ item body "status" = Some (JStr "expired")).
Proof.
  intros Hadmin Hkeys Hdevices.
  apply first_None in Hkeys. apply first_None in Hdevices.
  unfold _get_activation_status, status.
  rewrite Hadmin, Hkeys, Hdevices. simpl.
  split; eexists; (split; [reflexivity|reflexivity]).
Qed.

(** *** Redemption *)

Lemma status_cases (s : string) :
  s = "activated" \/ s = "revoked" \/ s = "available" \/ s = "sold"
  \/ (s <> "activated" /\ s <> "revoked" /\ s <> "available" /\ s <> "sold").
Proof.
  destruct (decide (s = "activated")); [tauto|].
  destruct (decide (s = "revoked")); [tauto|].
  destruct (decide (s = "available")); [tauto|].
  destruct (decide (s = "sold")); tauto.
Qed.

Lemma eqb_false (s s' : string) : s <> s' -> String.eqb s s' = false.
Proof. by rewrite String.eqb_neq. Qed.

(** C3.  When the code of a redemption request designates a key whose
    status is neither 'available' nor 'sold', [activate] answers 409 if
    the status is 'activated' or 'revoked' and 400 for any other status,
    and the database, the key included, is as before. *)
Theorem activate_rejects_used_key (data : option json) (now : datetime)
    (user : User.t) (db : Store) (key_code : string) (i : nat)
    (key : ActivationKey.t) :
  requested_key_code data = inr key_code ->
  Query.first_at (fun k => String.eqb (ActivationKey.key_code k) key_code)
                 (activation_keys db) = Some (i, key) ->
  ActivationKey.status key <> "available" ->
  ActivationKey.status key <> "sold" ->
  snd (activate data now user db) = db
  /\ (ActivationKey.status key = "activated" \/ ActivationKey.status key = "revoked" ->
      code_of (fst (activate data now user db)) = Some 409)
  /\ (ActivationKey.status key <> "activated" ->
      ActivationKey.status key <> "revoked" ->
      code_of (fst (activate data now user db)) = Some 400).
Proof.
  intros Hcode Hfind Havailable Hsold.
  unfold activate. rewrite Hcode. simpl. rewrite Hfind.
  destruct (status_cases (ActivationKey.status key))
    as [Hs|[Hs|[Hs|[Hs|(Ha & Hr & _ & _)]]]]; try done.
  - rewrite Hs. simpl. split; [done|]. split; [done|]. by intros Hne.
  - rewrite Hs. simpl. split; [done|]. split; [done|]. by intros _ Hne.
  - rewrite (eqb_false _ _ Ha), (eqb_false _ _ Hr),
      (eqb_false _ _ Havailable), (eqb_false _ _ Hsold). simpl.
    split; [done|]. split; [|done]. by intros [Hs|Hs].
Qed.

Lemma activate_redeems (data : option json) (now : datetime) (user : User.t)
    (db : Store) (key_code : string) (j : nat) (key : ActivationKey.t) :
  requested_key_code data = inr key_code ->
  Query.first_at (fun k => String.eqb (ActivationKey.key_code k) key_code)
                 (activation_keys db) = Some (j, key) ->
  ActivationKey.status key = "available" \/ ActivationKey.status key = "sold" ->
  exists body,
    activate data now user db =
    (Response body 200,
     set_activation_keys (<[j := redeem user now key]> (activation_keys db)) db).
Proof.
  intros Hcode Hfind Hstatus.
  unfold activate. rewrite Hcode. simpl. rewrite Hfind.
  destruct Hstatus as [Hs|Hs]; rewrite Hs; simpl; eauto.
Qed.


(** *** Extension *)

Lemma has_id_true {A} (id_of : A -> positive) (ident : Z) (r : A) :
  Query.has_id id_of ident r = true <-> Zpos (id_of r) = ident.
Proof. unfold Query.has_id. apply Z.eqb_eq. Qed.

Lemma positive_days_int (n : Z) : 1 <= n -> positive_days (JInt n) = inr n.
Proof.
  intros Hn. unfold positive_days. simpl.
  destruct (Z.eqb_spec n 0) as [->|_]; [lia|]. simpl.
  destruct (Z.ltb_spec n 1); [lia|done].
Qed.


(** *** Revocation *)

Lemma body_required_items (d : json) : d <> [] -> body_required (Some d) = inr d.
Proof. by destruct d. Qed.

Lemma expire_trials_lookup (uid : positive) (now : datetime)
    (ds : list Device.t) (n : nat) (dev : Device.t) :
  ds !! n = Some dev ->
  expire_trials uid now ds !! n
  = Some (if active_trial_of (Zpos uid) now dev
          then Device.set_trial_expires_at now dev else dev).
Proof.
  intros Hn. unfold expire_trials.
  change (map ?f ds) with (f <$> ds). by rewrite list_lookup_fmap, Hn.
Qed.

Lemma only_raises_bind {A B} (m : handler A) (k : A -> handler B) :
  only_raises m -> (forall x, only_raises (k x)) -> only_raises (Py.bind m k).
Proof.
  intros Hm Hk r. destruct m as [r'|x]; simpl.
  - intros [= <-]. by apply Hm.
  - apply Hk.
Qed.

Lemma only_raises_inr {A} (x : A) : only_raises (inr x : handler A).
Proof. by intros r. Qed.

Lemma update_text_raises (data : json) (field : string)
    (set : option string -> ActivationKey.t -> ActivationKey.t)
    (k : ActivationKey.t) :
  only_raises (update_text data field set k).
Proof.
  unfold update_text. destruct (lookup_key data field) as [v|].
  - apply only_raises_bind; [|intros; apply only_raises_inr].
    intros r. destruct v; simpl; intros [= <-]; eauto.
  - apply only_raises_inr.
Qed.

Lemma update_key_duration_raises (data : json) (k : ActivationKey.t) :
  only_raises (update_key_duration data k).
Proof.
  unfold update_key_duration. destruct (lookup_key data "duration_days") as [v|].
  - apply only_raises_bind; [|intros; apply only_raises_inr].
    intros r. unfold py_int. repeat case_match; intros [= <-]; eauto.
  - apply only_raises_inr.
Qed.

Lemma db_numeric_raises (v : jval) : only_raises (db_numeric v).
Proof. intros r. destruct v; simpl; intros [= <-]; eauto. Qed.

Lemma update_text_cases (data : json) (field : string)
    (set : option string -> ActivationKey.t -> ActivationKey.t)
    (k k' : ActivationKey.t) :
  update_text data field set k = inr k' ->
  (lookup_key data field = None /\ k' = k)
  \/ (exists v, lookup_key data field <> None /\ k' = set v k).
Proof.
  unfold update_text. destruct (lookup_key data field) as [v|].
  - intros (raw & _ & [= <-])%bind_inr. right. eauto.
  - intros [= <-]. by left.
Qed.

(** C6.  A request that sets the status of a key to 'revoked'.  When it is
    answered, the key has the status 'revoked' and no [user_id],
    [activated_email], [activated_at] or [expires_at]; [sold_at] and every
    sale-tracking field the request does not edit are as before; every
    device of the user the key belonged to whose trial expires after [now]
    has [trial_expires_at = now]; and every other device, a device of that
    user whose trial has lapsed included, is as before.  A request that
    revokes and edits nothing else is answered, with 200. *)
Theorem revoke_clears_key_and_trials (key_id : Z) (d : json) (now : datetime)
    (user : User.t) (db : Store) (i : nat) (key : ActivationKey.t) :
  Query.first_at (Query.has_id ActivationKey.id key_id) (activation_keys db)
    = Some (i, key) ->
  lookup_key d "status" = Some (JStr "revoked") ->
  (forall body db',
     update_key key_id (Some d) now user db = (Response body 200, db') ->
     exists key',
       activation_keys db' = <[i := key']> (activation_keys db)
       /\ ActivationKey.status key' = "revoked"
       /\ ActivationKey.user_id key' = None
       /\ ActivationKey.activated_email key' = None
       /\ ActivationKey.activated_at key' = None
       /\ ActivationKey.expires_at key' = None
       /\ ActivationKey.sold_at key' = ActivationKey.sold_at key
       /\ (lookup_key d "sold_to_name" = None ->
           ActivationKey.sold_to_name key' = ActivationKey.sold_to_name key)
       /\ (lookup_key d "sold_to_email" = None ->
           ActivationKey.sold_to_email key' = ActivationKey.sold_to_email key)
       /\ (lookup_key d "sold_price" = None ->
           ActivationKey.sold_price key' = ActivationKey.sold_price key)
       /\ (lookup_key d "notes" = None ->
           ActivationKey.notes key' = ActivationKey.notes key)
       /\ length (devices db') = length (devices db)
       /\ forall n dev, devices db !! n = Some dev ->
            (ActivationKey.user_id key = Some (Device.user_id dev) ->
             now < Device.trial_expires_at dev ->
             devices db' !! n = Some (Device.set_trial_expires_at now dev))
            /\ (Device.trial_expires_at dev <= now -> devices db' !! n = Some dev)
            /\ (ActivationKey.user_id key <> Some (Device.user_id dev) ->
                devices db' !! n = Some dev))
  /\ (lookup_key d "sold_to_name" = None ->
      lookup_key d "sold_to_email" = None ->
      lookup_key d "sold_price" = None ->
      lookup_key d "notes" = None ->
      lookup_key d "duration_days" = None ->
      exists body db',
        update_key key_id (Some d) now user db = (Response body 200, db')).
Proof.
  intros Hfind Hstatus.
  assert (d <> []) as Hbody by (intros ->; discriminate).
  unfold update_key.
  rewrite Hfind, (body_required_items d Hbody). simpl.
  unfold update_key_status. rewrite Hstatus. simpl. split.
  - intros body db' Hrun.
    destruct (Py.bind _ _) as [r|o] eqn:Ho; simpl in Hrun.
    { injection Hrun as -> _.
      match type of Ho with
      | ?h = _ => assert (only_raises h) as Hraises
      end.
      { apply only_raises_bind; [apply update_text_raises|intros k1].
        apply only_raises_bind; [apply update_text_raises|intros k2].
        apply only_raises_bind; [apply update_text_raises|intros k3].
        apply only_raises_bind; [apply update_key_duration_raises|intros k4].
        apply only_raises_bind; [|intros; apply only_raises_inr].
        destruct (lookup_key d "sold_price"); [|apply only_raises_inr].
        apply only_raises_bind; [apply db_numeric_raises|intros; apply only_raises_inr]. }
      by destruct (Hraises _ Ho) as [e [=]]. }
    subst o.
    apply bind_inr in Ho as (k1 & Hk1 & Ho).
    apply bind_inr in Ho as (k2 & Hk2 & Ho).
    apply bind_inr in Ho as (k3 & Hk3 & Ho).
    apply bind_inr in Ho as (k4 & Hk4 & Ho).
    apply bind_inr in Ho as (k5 & Hk5 & [= _ <-]). simpl.
    exists k5. split; [done|].
    apply update_text_cases in Hk1, Hk2, Hk3.
    assert (ActivationKey.status k3 = "revoked") as Hrevoked.
    { destruct Hk1 as [[_ ->]|(? & _ & ->)], Hk2 as [[_ ->]|(? & _ & ->)],
        Hk3 as [[_ ->]|(? & _ & ->)]; reflexivity. }
    assert (k4 = k3 \/ exists n, k4 = ActivationKey.set_duration_days n k3) as Hk4'.
    { unfold update_key_duration in Hk4.
      destruct (lookup_key d "duration_days"); [|left; congruence].
      apply bind_inr in Hk4 as (n & _ & Hk4). simpl in Hk4.
      rewrite Hrevoked in Hk4. simpl in Hk4. right. exists n. congruence. }
    assert ((lookup_key d "sold_price" = None /\ k5 = k4)
            \/ exists v, lookup_key d "sold_price" <> None
                         /\ k5 = ActivationKey.set_sold_price v k4) as Hk5'.
    { destruct (lookup_key d "sold_price") as [v|].
      - apply bind_inr in Hk5 as (price & _ & [= <-]). right. eauto.
      - left. split; [done|congruence]. }
    assert (forall P : ActivationKey.t -> Prop,
              P (revoke key) ->
              (forall v k, P k -> P (ActivationKey.set_sold_to_name v k)) ->
              (forall v k, P k -> P (ActivationKey.set_sold_to_email v k)) ->
              (forall v k, P k -> P (ActivationKey.set_notes v k)) ->
              (forall v k, P k -> P (ActivationKey.set_duration_days v k)) ->
              (forall v k, P k -> P (ActivationKey.set_sold_price v k)) ->
              P k5) as Hall.
    { intros P H0 Hn He Ht Hd Hp.
      destruct Hk1 as [[_ ->]|(? & _ & ->)], Hk2 as [[_ ->]|(? & _ & ->)],
        Hk3 as [[_ ->]|(? & _ & ->)], Hk4' as [->|(? & ->)],
        Hk5' as [[_ ->]|(? & _ & ->)]; auto 10. }
    do 6 (split; [by apply Hall|]).
    split.
    { intros Hnone. destruct Hk1 as [[_ ->]|(? & Hsome & _)]; [|done].
      destruct Hk2 as [[_ ->]|(? & _ & ->)], Hk3 as [[_ ->]|(? & _ & ->)],
        Hk4' as [->|(? & ->)], Hk5' as [[_ ->]|(? & _ & ->)]; reflexivity. }
    split.
    { intros Hnone. destruct Hk2 as [[_ ->]|(? & Hsome & _)]; [|done].
      destruct Hk1 as [[_ ->]|(? & _ & ->)], Hk3 as [[_ ->]|(? & _ & ->)],
        Hk4' as [->|(? & ->)], Hk5' as [[_ ->]|(? & _ & ->)]; reflexivity. }
    split.
    { intros Hnone. destruct Hk5' as [[_ ->]|(? & Hsome & _)]; [|done].
      destruct Hk1 as [[_ ->]|(? & _ & ->)], Hk2 as [[_ ->]|(? & _ & ->)],
        Hk3 as [[_ ->]|(? & _ & ->)], Hk4' as [->|(? & ->)]; reflexivity. }
    split.
    { intros Hnone. destruct Hk3 as [[_ ->]|(? & Hsome & _)]; [|done].
      destruct Hk1 as [[_ ->]|(? & _ & ->)], Hk2 as [[_ ->]|(? & _ & ->)],
        Hk4' as [->|(? & ->)], Hk5' as [[_ ->]|(? & _ & ->)]; reflexivity. }
    destruct (ActivationKey.user_id key) as [uid|].
    + split; [unfold expire_trials; by rewrite length_map|].
      intros n dev Hn. rewrite (expire_trials_lookup uid now _ n dev Hn).
      destruct (active_trial_of (Zpos uid) now dev) eqn:Htrial.
      * apply active_trial_of_true in Htrial as [Hu Hlt].
        split; [done|]. split; [lia|]. intros Hne. congruence.
      * split; [|done]. intros [= ->] Hlt.
        assert (active_trial_of (Zpos (Device.user_id dev)) now dev = true)
          by (by apply active_trial_of_true).
        congruence.
    + split; [done|]. intros n dev Hn. split; [done|]. done.
  - intros Hname Hemail Hprice Hnotes Hduration.
    unfold update_text, update_key_duration.
    rewrite Hname, Hemail, Hprice, Hnotes, Hduration. simpl. eauto.
Qed.

(** *** Trial registration *)

Lemma registration_form_device (body : json) (email password : string)
    (device_id platform : jval) :
  registration_form (Some body) = inr (email, password, device_id, platform) ->
  device_id = get body "device_id" (JStr "")
  /\ platform = get body "platform" (JStr "android").
Proof.
  unfold registration_form. intros Hform.
  apply bind_inr in Hform as (body' & Hbody & Hform).
  assert (body' = body) as -> by (destruct body; simpl in Hbody; congruence).
  repeat (apply bind_inr in Hform as (? & _ & Hform)).
  by injection Hform as _ _ <- <-.
Qed.

(** C7.  A registration request names a [(device_id, platform)] pair for
    which a [Device] row exists.  Whoever asks, the database after
    [register] is the database before it: no row is created and the
    existing row keeps its trial window.  When the request passes the
    checks on its body, the answer is 409. *)
Theorem register_rejects_known_device (body : json) (now : datetime)
    (db : Store) (device_id platform : string) (dev : Device.t) :
  get body "device_id" (JStr "") = JStr device_id ->
  get body "platform" (JStr "android") = JStr platform ->
  dev ∈ devices db ->
  Device.device_id dev = device_id ->
  Device.platform dev = platform ->
  snd (register (Some body) now db) = db
  /\ (forall email password device_id' platform',
        registration_form (Some body)
          = inr (email, password, device_id', platform') ->
        code_of (fst (register (Some body) now db)) = Some 409).
Proof.
  intros Hdevice_id Hplatform Hdev Hid Hpair.
  assert (same_device device_id platform dev = true) as Hsame
    by (apply same_device_true; unfold device_pair; congruence).
  destruct (first_found _ _ _ Hdev Hsame) as (existing & Hfirst).
  assert (forall email password device_id' platform',
            registration_form (Some body)
              = inr (email, password, device_id', platform') ->
            snd (register (Some body) now db) = db
            /\ code_of (fst (register (Some body) now db)) = Some 409) as Hboth.
  { intros email password device_id' platform' Hform.
    destruct (registration_form_device _ _ _ _ _ Hform) as [-> ->].
    unfold register. rewrite Hform, Hdevice_id, Hplatform. simpl.
    destruct (Query.first _ (users db)); simpl; [done|].
    by rewrite Hfirst. }
  split.
  - destruct (registration_form (Some body)) as [r|[[[email password] d] p]] eqn:Hform.
    + unfold register. by rewrite Hform.
    + by apply (Hboth email password d p).
  - intros email password device_id' platform' Hform.
    by apply (Hboth email password device_id' platform').
Qed.

(** *** Key generation *)

Lemma generate_loop_codes (n : nat) (draws : nat -> nat) (pos : nat)
    (next_id : positive) (duration_days : Z) (initial_status : string)
    (sold_to_name sold_to_email : option string) (sold_at : option datetime)
    (sold_price : option Z) (notes : option string) (created_by : positive)
    (now : datetime) :
  map ActivationKey.key_code
      (generate_loop n draws pos next_id duration_days initial_status
         sold_to_name sold_to_email sold_at sold_price notes created_by now)
  = map (fun j => KeyGenerator.generate_activation_key draws (pos + 16 * j)%nat)
        (seq 0 n).
Proof.
  revert pos next_id. induction n as [|n IH]; intros pos next_id; [done|].
  simpl. f_equal.
  - f_equal. lia.
  - rewrite IH, <- seq_shift, map_map. apply map_ext. intros j. f_equal. lia.
Qed.

Lemma generate_loop_status (n : nat) (draws : nat -> nat) (pos : nat)
    (next_id : positive) (duration_days : Z) (initial_status : string)
    (sold_to_name sold_to_email : option string) (sold_at : option datetime)
    (sold_price : option Z) (notes : option string) (created_by : positive)
    (now : datetime) (k : ActivationKey.t) :
  k ∈ generate_loop n draws pos next_id duration_days initial_status
        sold_to_name sold_to_email sold_at sold_price notes created_by now ->
  ActivationKey.status k = initial_status.
Proof.
  revert pos next_id. induction n as [|n IH]; intros pos next_id; simpl.
  - by intros ?%elem_of_nil.
  - intros [->|Hk]%elem_of_cons; [done|]. by eapply IH.
Qed.

Lemma insert_keys_inserted (ks : list ActivationKey.t) (db db' : Store) :
  insert_keys ks db = inr db' ->
  activation_keys db' = activation_keys db ++ ks
  /\ users db' = users db /\ devices db' = devices db.
Proof.
  revert db. induction ks as [|k ks IH]; intros db; simpl.
  - intros [= <-]. by rewrite app_nil_r.
  - unfold insert_key. case_bool_decide; simpl; [done|].
    intros Hrest. apply IH in Hrest as (-> & -> & ->). simpl.
    by rewrite <- app_assoc.
Qed.

Lemma insert_keys_fresh (ks : list ActivationKey.t) (db : Store) :
  codes_fresh ks db -> exists db', insert_keys ks db = inr db'.
Proof.
  revert db. induction ks as [|k ks IH]; intros db [Hnodup Hnew]; simpl; [eauto|].
  unfold insert_key. case_bool_decide as Hin; simpl.
  - destruct (Hnew k); [left|done].
  - apply IH. simpl in Hnodup. apply NoDup_cons in Hnodup as [Hk Hnodup].
    split; [done|]. intros k' Hk'. simpl.
    rewrite map_app. simpl. rewrite elem_of_app, list_elem_of_singleton.
    intros [Hold|Heq].
    + destruct (Hnew k'); [by right|done].
    + apply Hk. rewrite <- Heq. change (map ?f ks) with (f <$> ks).
      by apply list_elem_of_fmap_2.
Qed.

Lemma insert_keys_clash (ks : list ActivationKey.t) (db : Store) :
  ~ codes_fresh ks db -> insert_keys ks db = inl (Raised IntegrityError).
Proof.
  revert db. induction ks as [|k ks IH]; intros db Hclash; simpl.
  - destruct Hclash. split; [constructor|]. by intros k ?%elem_of_nil.
  - unfold insert_key. case_bool_decide as Hin; simpl; [done|].
    apply IH. intros [Hnodup Hnew]. apply Hclash. split.
    + simpl. apply NoDup_cons. split; [|done].
      intros Hk. change (map ?f ks) with (f <$> ks) in Hk.
      apply list_elem_of_fmap in Hk as (k' & Heq & Hk').
      apply (Hnew k' Hk'). simpl. rewrite map_app. simpl.
      rewrite elem_of_app, list_elem_of_singleton. by right.
    + intros k' [->|Hk']%elem_of_cons; [done|].
      intros Hold. apply (Hnew k' Hk'). simpl. rewrite map_app.
      rewrite elem_of_app. by left.
Qed.

Lemma generate_loop_length (n : nat) (draws : nat -> nat) (pos : nat)
    (next_id : positive) (duration_days : Z) (initial_status : string)
    (sold_to_name sold_to_email : option string) (sold_at : option datetime)
    (sold_price : option Z) (notes : option string) (created_by : positive)
    (now : datetime) :
  length (generate_loop n draws pos next_id duration_days initial_status
            sold_to_name sold_to_email sold_at sold_price notes created_by now)
  = n.
Proof.
  revert pos next_id. induction n as [|n IH]; intros pos next_id; [done|].
  simpl. by rewrite IH.
Qed.

Lemma generated_rows_loop (data : option json) (draws : nat -> nat)
    (now : datetime) (admin_user : User.t) (db : Store)
    (rows : list ActivationKey.t) :
  generated_rows data draws now admin_user db = inr rows ->
  exists n next_id duration_days initial_status sold_to_name sold_to_email
         sold_at sold_price notes created_by,
    rows = generate_loop n draws 0 next_id duration_days initial_status
             sold_to_name sold_to_email sold_at sold_price notes created_by now
    /\ (initial_status = "available" \/ initial_status = "sold").
Proof.
  unfold generated_rows, stripped_or_None. intros Hrows.
  repeat (apply bind_inr in Hrows as (? & _ & Hrows)).
  injection Hrows as <-. do 10 eexists. split; [reflexivity|].
  match goal with |- context [if ?c then _ else _] => destruct c end; auto.
Qed.


(** *** Every operation has one of the effects *)

Lemma key_preserves_refl (k : ActivationKey.t) : key_preserves k k.
Proof. intros Hs Hk. auto. Qed.

Lemma key_preserves_trans (k1 k2 k3 : ActivationKey.t) :
  key_preserves k1 k2 -> key_preserves k2 k3 -> key_preserves k1 k3.
Proof. intros H12 H23 Hs Hk. apply H23; [done|]. intros Hs2. by apply H12. Qed.

Lemma redeem_recorded (user : User.t) (now : datetime) (k : ActivationKey.t) :
  redemption_recorded (redeem user now k).
Proof. unfold redemption_recorded, redeem. simpl. eauto 10. Qed.

Lemma extend_preserves (n : Z) (now : datetime) (k : ActivationKey.t) :
  key_preserves k (extend n now k).
Proof.
  intros Hs Hk.
  assert (ActivationKey.status k = "activated") as Hact.
  { revert Hs. unfold extend. by repeat case_match. }
  destruct (Hk Hact) as (u & e & a & x & Hu & He & Ha & Hx & Hwin).
  unfold redemption_recorded, extend. rewrite Hx.
  destruct (now <? x); simpl; rewrite Hu, He, ?Ha;
    eexists _, _, _, _; repeat (split; [reflexivity|]).
  - subst x. unfold days_delta. lia.
  - done.
Qed.

Lemma update_key_status_preserves (data : json) (now : datetime)
    (k : ActivationKey.t) (ds : list Device.t) :
  key_preserves k (fst (update_key_status data now k ds))
  /\ (snd (update_key_status data now k ds) = ds
      \/ exists uid, snd (update_key_status data now k ds) = expire_trials uid now ds).
Proof.
  unfold update_key_status. repeat case_match; simpl; (split; [|eauto]);
    try apply key_preserves_refl; by intros Hs.
Qed.

Lemma update_text_preserves (data : json) (field : string)
    (set : option string -> ActivationKey.t -> ActivationKey.t)
    (k k' : ActivationKey.t) :
  (forall v, key_preserves k (set v k)) ->
  update_text data field set k = inr k' -> key_preserves k k'.
Proof.
  intros Hset. unfold update_text. destruct (lookup_key data field) as [v|].
  - intros (raw & _ & [= <-])%bind_inr. apply Hset.
  - intros [= <-]. apply key_preserves_refl.
Qed.

Lemma set_sale_preserves (k : ActivationKey.t) :
  (forall v, key_preserves k (ActivationKey.set_sold_to_name v k))
  /\ (forall v, key_preserves k (ActivationKey.set_sold_to_email v k))
  /\ (forall v, key_preserves k (ActivationKey.set_notes v k))
  /\ (forall v, key_preserves k (ActivationKey.set_sold_price v k)).
Proof. repeat split; intros v Hs Hk; exact (Hk Hs). Qed.

Lemma update_key_duration_preserves (data : json) (k k' : ActivationKey.t) :
  update_key_duration data k = inr k' -> key_preserves k k'.
Proof.
  unfold update_key_duration. destruct (lookup_key data "duration_days") as [v|].
  - intros (n & _ & [= <-])%bind_inr. simpl.
    destruct (String.eqb (ActivationKey.status k) "activated") eqn:Hact.
    + apply String.eqb_eq in Hact. intros _ Hk.
      destruct (Hk Hact) as (u & e & a & x & Hu & He & Ha & Hx & Hwin).
      rewrite Ha. unfold redemption_recorded. simpl. rewrite Hu, He, Ha.
      eexists _, _, _, _. repeat (split; [reflexivity|]). done.
    + intros Hs. simpl in Hs. apply String.eqb_neq in Hact. done.
  - intros [= <-]. apply key_preserves_refl.
Qed.

Lemma decorated_effect (fn : User.t -> Store -> outcome) (identity : option Z)
    (db : Store) :
  (forall user, effect db (snd (fn user db))) ->
  effect db (snd (jwt_required_custom fn identity db))
  /\ effect db (snd (admin_required fn identity db)).
Proof.
  intros Hfn. unfold jwt_required_custom, admin_required.
  split; repeat case_match; simpl; try apply Hfn; constructor.
Qed.

Lemma settle_effect (db : Store) (h : handler outcome) :
  (forall o, h = inr o -> effect db (snd o)) -> effect db (snd (settle db h)).
Proof. destruct h as [r|o]; simpl; [constructor|auto]. Qed.

Lemma session_reply_db (user : User.t) (code : Z) (now : datetime) (db : Store) :
  snd (session_reply user code now db) = db.
Proof. unfold session_reply. by destruct (_get_activation_status user now db). Qed.

Lemma register_effect (data : option json) (now : datetime) (db : Store) :
  effect db (snd (register data now db)).
Proof.
  unfold register. apply settle_effect. intros o Ho.
  apply bind_inr in Ho as ([[[email password] device_id] platform] & _ & Ho).
  repeat (apply bind_inr in Ho as (? & _ & Ho)).
  destruct (Query.first _ (devices db)); [done|].
  apply bind_inr in Ho as (db2 & Hins & [= <-]).
  rewrite session_reply_db. by eapply effect_device.
Qed.

Lemma login_effect (data : option json) (now : datetime) (db : Store) :
  effect db (snd (login data now db)).
Proof.
  unfold login. apply settle_effect. intros o Ho.
  repeat (apply bind_inr in Ho as (? & _ & Ho)).
  destruct (Query.first _ (users db)) as [user|]; [|done].
  do 3 (apply bind_inr in Ho as (? & _ & Ho)).
  apply bind_inr in Ho as (db1 & Hdb1 & [= <-]).
  rewrite session_reply_db.
  destruct (truthy _ && truthy _); [|injection Hdb1 as <-; constructor].
  repeat (apply bind_inr in Hdb1 as (? & _ & Hdb1)).
  destruct (Query.first _ (devices db)); [injection Hdb1 as <-; constructor|].
  eapply effect_device with (us := users db) (n := users_id_seq db).
  by destruct db.
Qed.

Lemma me_effect (now : datetime) (user : User.t) (db : Store) :
  effect db (snd (me now user db)).
Proof.
  unfold me. apply settle_effect. intros o Ho.
  apply bind_inr in Ho as (? & _ & [= <-]). constructor.
Qed.

Lemma status_effect (now : datetime) (user : User.t) (db : Store) :
  effect db (snd (status now user db)).
Proof.
  unfold status. apply settle_effect. intros o Ho.
  repeat case_match; try (apply bind_inr in Ho as (? & _ & Ho));
    injection Ho as <-; constructor.
Qed.

Lemma check_device_effect (data : option json) (db : Store) :
  effect db (snd (check_device data db)).
Proof.
  unfold check_device. apply settle_effect. intros o Ho.
  repeat (apply bind_inr in Ho as (? & _ & Ho)).
  injection Ho as <-. constructor.
Qed.

Lemma key_row_effect (db : Store) (i : nat) (k k' : ActivationKey.t) :
  activation_keys db !! i = Some k ->
  key_preserves k k' ->
  effect db (set_activation_keys (<[i := k']> (activation_keys db)) db).
Proof. intros Hi Hk. eapply effect_key; eauto. Qed.

Lemma activate_effect (data : option json) (now : datetime) (user : User.t)
    (db : Store) :
  effect db (snd (activate data now user db)).
Proof.
  unfold activate. apply settle_effect. intros o Ho.
  apply bind_inr in Ho as (key_code & _ & Ho).
  destruct (Query.first_at _ (activation_keys db)) as [[i key]|] eqn:Hfind; [|done].
  repeat (apply bind_inr in Ho as (? & _ & Ho)).
  injection Ho as <-. simpl.
  apply first_at_Some in Hfind as (Hi & _ & _).
  eapply key_row_effect; [done|]. intros _ _. apply redeem_recorded.
Qed.

Lemma update_user_effect (user_id : Z) (data : option json) (admin : User.t)
    (db : Store) :
  effect db (snd (update_user user_id data admin db)).
Proof.
  unfold update_user. apply settle_effect. intros o Ho.
  apply bind_inr in Ho as (? & _ & Ho).
  destruct (Query.first_at _ (users db)) as [[i target]|]; [|done].
  repeat (apply bind_inr in Ho as (? & _ & Ho)).
  injection Ho as <-. apply effect_users.
Qed.

Lemma extend_license_has_effect (user_id : Z) (data : option json)
    (now : datetime) (admin : User.t) (db : Store) :
  effect db (snd (extend_license user_id data now admin db)).
Proof.
  unfold extend_license. apply settle_effect. intros o Ho.
  apply bind_inr in Ho as (? & _ & Ho).
  destruct (Query.first _ (users db)) as [target|]; [|done].
  repeat (apply bind_inr in Ho as (? & _ & Ho)).
  destruct (Query.first_at _ (activation_keys db)) as [[i key]|] eqn:Hfind; [|done].
  injection Ho as <-. simpl.
  apply first_at_Some in Hfind as (Hi & _ & _).
  eapply key_row_effect; [done|]. apply extend_preserves.
Qed.

Lemma assign_key_effect (user_id : Z) (data : option json) (now : datetime)
    (admin : User.t) (db : Store) :
  effect db (snd (assign_key user_id data now admin db)).
Proof.
  unfold assign_key. apply settle_effect. intros o Ho.
  apply bind_inr in Ho as (? & _ & Ho).
  destruct (Query.first _ (users db)) as [target|]; [|done].
  repeat (apply bind_inr in Ho as (? & _ & Ho)).
  destruct (Query.first_at _ (activation_keys db)) as [[i key]|] eqn:Hfind; [|done].
  repeat (apply bind_inr in Ho as (? & _ & Ho)).
  injection Ho as <-. simpl.
  apply first_at_Some in Hfind as (Hi & _ & _).
  eapply key_row_effect; [done|]. intros _ _. apply redeem_recorded.
Qed.

Lemma generate_keys_effect (data : option json) (draws : nat -> nat)
    (now : datetime) (admin_user : User.t) (db : Store) :
  effect db (snd (generate_keys data draws now admin_user db)).
Proof.
  unfold generate_keys. apply settle_effect. intros o Ho.
  apply bind_inr in Ho as (rows & Hrows & Ho).
  apply bind_inr in Ho as (db' & Hins & [= <-]). simpl.
  eapply effect_rows; [done|]. intros k Hk.
  destruct (generated_rows_loop _ _ _ _ _ _ Hrows)
    as (n & p & dd & st & sn & se & sa & sp & nt & cb & -> & Hst).
  apply generate_loop_status in Hk. rewrite Hk.
  destruct Hst as [-> | ->]; done.
Qed.

Lemma update_key_effect (key_id : Z) (data : option json) (now : datetime)
    (user : User.t) (db : Store) :
  effect db (snd (update_key key_id data now user db)).
Proof.
  unfold update_key. apply settle_effect. intros o Ho.
  destruct (Query.first_at _ (activation_keys db)) as [[i key]|] eqn:Hfind; [|done].
  apply bind_inr in Ho as (d & _ & Ho).
  destruct (update_key_status_preserves d now key (devices db)) as [Hk0 Hds].
  destruct (update_key_status d now key (devices db)) as [k0 ds]. simpl in *.
  apply bind_inr in Ho as (k1 & Hk1 & Ho).
  apply bind_inr in Ho as (k2 & Hk2 & Ho).
  apply bind_inr in Ho as (k3 & Hk3 & Ho).
  apply bind_inr in Ho as (k4 & Hk4 & Ho).
  apply bind_inr in Ho as (k5 & Hk5 & [= <-]). simpl.
  apply first_at_Some in Hfind as (Hi & _ & _).
  eapply effect_key; [done| |destruct Hds as [->|[uid ->]]; eauto].
  apply update_text_preserves in Hk1; [|apply set_sale_preserves].
  apply update_text_preserves in Hk2; [|apply set_sale_preserves].
  apply update_text_preserves in Hk3; [|apply set_sale_preserves].
  apply update_key_duration_preserves in Hk4.
  assert (key_preserves k4 k5) as Hk5'.
  { destruct (lookup_key d "sold_price") as [v|].
    - apply bind_inr in Hk5 as (price & _ & [= <-]). apply set_sale_preserves.
    - injection Hk5 as <-. apply key_preserves_refl. }
  repeat (eapply key_preserves_trans; [eassumption|]). apply key_preserves_refl.
Qed.

Lemma delete_key_effect (key_id : Z) (user : User.t) (db : Store) :
  effect db (snd (delete_key key_id user db)).
Proof.
  unfold delete_key. apply settle_effect. intros o Ho.
  destruct (Query.first_at _ (activation_keys db)) as [[i key]|]; [|done].
  injection Ho as <-. apply effect_delete.
Qed.

Lemma create_admin_effect (email password : string) (now : datetime) (db : Store) :
  effect db (create_admin email password now db).
Proof.
  unfold create_admin. destruct (Query.first_at _ (users db)) as [[i existing]|].
  - apply effect_users.
  - apply effect_users.
Qed.

Lemma dispatch_effect (req : request) (now : datetime) (db : Store) :
  effect db (snd (dispatch req now db)).
Proof.
  destruct req; simpl;
    try (apply decorated_effect; intros user);
    auto using register_effect, login_effect, me_effect, status_effect,
      activate_effect, check_device_effect, update_user_effect,
      extend_license_has_effect, assign_key_effect, generate_keys_effect,
      update_key_effect, delete_key_effect.
Qed.

Lemma step_effect (db db' : Store) : step db db' -> effect db db'.
Proof.
  intros [req now|email password now];
    [apply dispatch_effect|apply create_admin_effect].
Qed.

(** *** The invariants of the tables *)

Lemma elem_of_insert_inv {A} (l : list A) (i : nat) (x y : A) :
  y ∈ <[i := x]> l -> y = x \/ y ∈ l.
Proof.
  intros [j Hj]%list_elem_of_lookup_1.
  destruct (decide (i = j)) as [->|Hne].
  - destruct (decide (j < length l)%nat).
    + rewrite list_lookup_insert_eq in Hj by done. left. congruence.
    + rewrite list_insert_ge in Hj by lia. right. by eapply list_elem_of_lookup_2.
  - rewrite list_lookup_insert_ne in Hj by done.
    right. by eapply list_elem_of_lookup_2.
Qed.

Lemma insert_device_inserted (d : Device.t) (db db' : Store) :
  insert_device d db = inr db' ->
  activation_keys db' = activation_keys db
  /\ devices db' = devices db ++ [d]
  /\ device_pair d ∉ map device_pair (devices db).
Proof.
  unfold insert_device. case_bool_decide as Hin; [done|].
  intros [= <-]. done.
Qed.

Lemma effect_keys_recorded (db db' : Store) :
  effect db db' -> keys_recorded db -> keys_recorded db'.
Proof.
  intros Heffect Hdb.
  destruct Heffect as [|us n|i k k' ds Hi Hk _|i|rows db' Hins Hrows|us n d db' Hins];
    try done.
  - intros k'' Hk'' Hs. simpl in Hk''.
    apply elem_of_insert_inv in Hk'' as [->|Hold]; [|by apply Hdb].
    apply Hk; [done|]. apply Hdb. by eapply list_elem_of_lookup_2.
  - intros k Hk Hs. simpl in Hk. apply list_elem_of_delete_inv in Hk.
    by apply Hdb.
  - apply insert_keys_inserted in Hins as (Hkeys & _ & _).
    intros k Hk Hs. rewrite Hkeys in Hk.
    apply elem_of_app in Hk as [Hold|Hnew]; [by apply Hdb|].
    by destruct (Hrows k Hnew).
  - apply insert_device_inserted in Hins as (Hkeys & _ & _).
    intros k Hk Hs. rewrite Hkeys in Hk. by apply Hdb.
Qed.

Lemma expire_trials_binding (uid : positive) (now : datetime) (ds : list Device.t) :
  map device_binding (expire_trials uid now ds) = map device_binding ds.
Proof.
  unfold expire_trials. rewrite map_map. apply map_ext. intros d.
  by destruct (active_trial_of (Zpos uid) now d).
Qed.

Lemma pairs_of_bindings (ds : list Device.t) :
  map device_pair ds = map snd (map device_binding ds).
Proof. rewrite map_map. done. Qed.

Lemma effect_devices (db db' : Store) :
  effect db db' ->
  map device_binding (devices db) `prefix_of` map device_binding (devices db')
  /\ (devices_unique db -> devices_unique db').
Proof.
  intros Heffect.
  destruct Heffect as [|us n|i k k' ds _ _ Hds|i|rows db' Hins _|us n d db' Hins];
    try done.
  - destruct Hds as [->|(uid & now & ->)]; [done|]. simpl.
    unfold devices_unique. simpl.
    rewrite !pairs_of_bindings, expire_trials_binding. done.
  - apply insert_keys_inserted in Hins as (_ & _ & Hdevices).
    unfold devices_unique. by rewrite Hdevices.
  - apply insert_device_inserted in Hins as (_ & Hdevices & Hnew).
    simpl in Hdevices, Hnew. unfold devices_unique. rewrite Hdevices, !map_app.
    split; [by apply prefix_app_r|]. intros Hunique.
    apply NoDup_app. split; [done|]. split.
    + intros p Hp [->|[]%elem_of_nil]%elem_of_cons. done.
    + apply NoDup_singleton.
Qed.

Lemma steps_keys_recorded (db db' : Store) :
  steps db db' -> keys_recorded db -> keys_recorded db'.
Proof.
  induction 1 as [db|db db1 db' Hstep _ IH]; [done|].
  intros Hdb. apply IH. eapply effect_keys_recorded; [|done]. by apply step_effect.
Qed.

Lemma steps_devices (db db' : Store) :
  steps db db' ->
  map device_binding (devices db) `prefix_of` map device_binding (devices db')
  /\ (devices_unique db -> devices_unique db').
Proof.
  induction 1 as [db|db db1 db' Hstep _ [IHprefix IHunique]]; [done|].
  apply step_effect, effect_devices in Hstep as [Hprefix Hunique].
  split; [by etrans|auto].
Qed.

Lemma unique_pair_binding (ds : list Device.t) (d d' : Device.t) :
  NoDup (map device_pair ds) ->
  device_binding d ∈ map device_binding ds ->
  d' ∈ ds ->
  device_pair d' = device_pair d ->
  Device.user_id d' = Device.user_id d.
Proof.
  intros Hunique Hd Hd' Hpair.
  change (map ?f ds) with (f <$> ds) in *.
  apply list_elem_of_fmap in Hd as (d'' & Hbinding & Hd'').
  assert (device_pair d'' = device_pair d) as Hpair''.
  { unfold device_binding in Hbinding. unfold device_pair. congruence. }
  apply list_elem_of_lookup_1 in Hd' as [i Hi].
  apply list_elem_of_lookup_1 in Hd'' as [j Hj].
  assert (i = j) as ->.
  { eapply NoDup_lookup; [exact Hunique| |].
    - rewrite list_lookup_fmap, Hi. reflexivity.
    - rewrite list_lookup_fmap, Hj. simpl. congruence. }
  unfold device_binding in Hbinding. congruence.
Qed.


(** C10.  From a database with at most one [Device] row per
    [(device_id, platform)] pair, every sequence of operations, trial
    registration and the insert at login among them, leads to such a
    database; a pair that had a row still has one, and the row found for
    it is bound to the user of the earlier row. *)
Theorem device_pairs_stay_bound (db db' : Store) :
  devices_unique db ->
  steps db db' ->
  devices_unique db'
  /\ (forall d, d ∈ devices db ->
       exists d', d' ∈ devices db' /\ device_pair d' = device_pair d)
  /\ (forall d d', d ∈ devices db -> d' ∈ devices db' ->
       device_pair d' = device_pair d ->
       Device.user_id d' = Device.user_id d).
Proof.
  intros Hdb Hsteps. destruct (steps_devices db db' Hsteps) as [Hprefix Hunique].
  assert (forall d, d ∈ devices db ->
            device_binding d ∈ map device_binding (devices db')) as Hkept.
  { intros d Hd. eapply elem_of_prefix; [|done].
    change (map ?f (devices db)) with (f <$> devices db).
    by apply list_elem_of_fmap_2. }
  split; [auto|]. split.
  - intros d Hd. specialize (Hkept d Hd).
    change (map ?f (devices db')) with (f <$> devices db') in Hkept.
    apply list_elem_of_fmap in Hkept as (d' & Hbinding & Hd').
    exists d'. split; [done|]. unfold device_binding in Hbinding.
    unfold device_pair. congruence.
  - intros d d' Hd Hd' Hpair.
    eapply unique_pair_binding; [by apply Hunique|by apply Hkept|done|done].
Qed.

Lemma empty_store_invariants :
  keys_recorded empty_store /\ devices_unique empty_store.
Proof.
  split.
  - by intros k Hk%elem_of_nil.
  - apply NoDup_nil_2.
Qed.

(** Every database reached from the empty one satisfies both. *)
Lemma reachable_invariants (db : Store) :
  steps empty_store db -> keys_recorded db /\ devices_unique db.
Proof.
  intros Hsteps. destruct empty_store_invariants as [Hkeys Hdevices]. split.
  - by eapply steps_keys_recorded.
  - by eapply steps_devices.
Qed.

(** *** The key generator *)

Lemma get_in_chars (s : string) (n : nat) (c : ascii) :
  String.get n s = Some c -> c ∈ list_ascii_of_string s.
Proof.
  revert n. induction s as [|a s IH]; intros n; simpl; [done|].
  destruct n as [|n].
  - intros [= ->]. apply list_elem_of_here.
  - intros Hget. apply list_elem_of_further. by eapply IH.
Qed.

Lemma get_in_range (s : string) (n : nat) :
  (n < String.length s)%nat -> exists c, String.get n s = Some c.
Proof.
  revert n. induction s as [|a s IH]; intros n; simpl; [lia|].
  destruct n as [|n]; [eauto|]. intros Hn. apply IH. lia.
Qed.

Lemma choice_in_CHARS (r : nat) :
  KeyGenerator.choice r KeyGenerator.CHARS
    ∈ list_ascii_of_string KeyGenerator.CHARS.
Proof.
  unfold KeyGenerator.choice.
  destruct (get_in_range KeyGenerator.CHARS
              (r mod String.length KeyGenerator.CHARS)) as [c Hc].
  { apply Nat.mod_upper_bound. discriminate. }
  rewrite Hc. by eapply get_in_chars.
Qed.

Lemma generated_code_shape (draws : nat -> nat) (pos : nat) :
  exists a0 a1 a2 a3 b0 b1 b2 b3 c0 c1 c2 c3 d0 d1 d2 d3,
    KeyGenerator.generate_activation_key draws pos
    = string_of_list_ascii
        [a0; a1; a2; a3; "-"%char; b0; b1; b2; b3; "-"%char;
         c0; c1; c2; c3; "-"%char; d0; d1; d2; d3]
    /\ Forall code_symbol [a0; a1; a2; a3; b0; b1; b2; b3;
                            c0; c1; c2; c3; d0; d1; d2; d3].
Proof.
  do 16 eexists. split.
  - unfold KeyGenerator.generate_activation_key, KeyGenerator.group.
    cbn [map seq join string_of_list_ascii String.append]. reflexivity.
  - repeat (apply Forall_cons; split; [apply choice_in_CHARS|]). apply Forall_nil_2.
Qed.

Lemma symbol_unambiguous (c : ascii) :
  code_symbol c ->
  c ∉ ["0"%char; "O"%char; "1"%char; "I"%char; "L"%char].
Proof.
  unfold code_symbol. intros Hc Hbad.
  repeat (apply elem_of_cons in Hbad as [->|Hbad]);
    [..|by apply elem_of_nil in Hbad];
    vm_compute in Hc;
    repeat (apply elem_of_cons in Hc as [Hc|Hc]; [discriminate|]);
    by apply elem_of_nil in Hc.
Qed.

(** X1.  Whatever the random source delivers, a generated code has 19
    characters: a dash at the positions 4, 9 and 14, and at every other
    position a symbol of [CHARS], none of which is 0, O, 1, I or L. *)
Theorem generated_code_format (draws : nat -> nat) (pos : nat) :
  String.length (KeyGenerator.generate_activation_key draws pos) = 19%nat
  /\ forall i c,
       String.get i (KeyGenerator.generate_activation_key draws pos) = Some c ->
       (i = 4%nat \/ i = 9%nat \/ i = 14%nat -> c = "-"%char)
       /\ (i <> 4%nat -> i <> 9%nat -> i <> 14%nat ->
           code_symbol c
           /\ c ∉ ["0"%char; "O"%char; "1"%char; "I"%char; "L"%char]).
Proof.
  destruct (generated_code_shape draws pos)
    as (a0 & a1 & a2 & a3 & b0 & b1 & b2 & b3 & c0 & c1 & c2 & c3
        & d0 & d1 & d2 & d3 & -> & Hsymbols).
  split; [reflexivity|]. intros i c Hget.
  repeat (apply Forall_cons in Hsymbols as [? Hsymbols]).
  do 19 (destruct i as [|i];
         [injection Hget as <-;
          (split; [intros [|[|]]; first [reflexivity | discriminate]
                  |intros; first [congruence | split; [assumption|by apply symbol_unambiguous]]])
         |]).
  simpl in Hget. discriminate.
Qed.

(** *** Canonical key codes *)

Lemma rstrip_padded (s : string) :
  Forall (fun c => isspace c = false) (list_ascii_of_string s) ->
  rstrip (s +:+ " ") = s /\ rstrip s = s.
Proof.
  induction s as [|c s IH]; simpl; [done|].
  intros [Hc Hs]%Forall_cons. destruct (IH Hs) as [-> ->].
  rewrite Hc. by destruct s.
Qed.

Lemma lstrip_symbol (c : ascii) (s : string) :
  isspace c = false -> lstrip (String c s) = String c s.
Proof. intros Hc. simpl. by rewrite Hc. Qed.

Lemma map_chars_lower (c : ascii) (s : string) :
  map_chars lower_char (String c s) = String (lower_char c) (map_chars lower_char s).
Proof. reflexivity. Qed.

Lemma upper_lower_symbols (s : string) :
  Forall (fun c => upper_char c = c /\ upper_char (lower_char c) = c)
         (list_ascii_of_string s) ->
  upper s = s /\ upper (lower s) = s.
Proof.
  unfold upper, lower. induction s as [|c s IH]; simpl; [done|].
  intros [[Hc Hc'] Hs]%Forall_cons. destruct (IH Hs) as [-> ->].
  by rewrite Hc, Hc'.
Qed.

Lemma lower_keeps_symbols (s : string) :
  Forall (fun c => isspace (lower_char c) = false) (list_ascii_of_string s) ->
  Forall (fun c => isspace c = false) (list_ascii_of_string (lower s)).
Proof.
  unfold lower. induction s as [|c s IH]; simpl; [done|].
  intros [Hc Hs]%Forall_cons. apply Forall_cons. auto.
Qed.

Lemma code_char_plain (c : ascii) :
  code_symbol c \/ c = "-"%char ->
  isspace c = false /\ isspace (lower_char c) = false
  /\ upper_char c = c /\ upper_char (lower_char c) = c.
Proof.
  unfold code_symbol. intros [Hc| ->]; [|by vm_compute].
  vm_compute in Hc.
  repeat (apply elem_of_cons in Hc as [->|Hc]; [by vm_compute|]).
  by apply elem_of_nil in Hc.
Qed.

Lemma generated_code_chars (draws : nat -> nat) (pos : nat) :
  Forall (fun c => code_symbol c \/ c = "-"%char)
         (list_ascii_of_string (KeyGenerator.generate_activation_key draws pos))
  /\ KeyGenerator.generate_activation_key draws pos <> "".
Proof.
  destruct (generated_code_shape draws pos)
    as (a0 & a1 & a2 & a3 & b0 & b1 & b2 & b3 & c0 & c1 & c2 & c3
        & d0 & d1 & d2 & d3 & -> & Hsymbols).
  split; [|done]. rewrite list_ascii_of_string_of_list_ascii.
  repeat (apply Forall_cons in Hsymbols as [? Hsymbols]).
  repeat (apply Forall_cons; split; [by auto|]). apply Forall_nil_2.
Qed.

Lemma canonical_request (draws : nat -> nat) (pos : nat) :
  let code := KeyGenerator.generate_activation_key draws pos in
  requested_key_code (Some [("key_code", JStr code)]) = inr code
  /\ requested_key_code (Some [("key_code", JStr (" " +:+ lower code +:+ " "))])
     = inr code.
Proof.
  intros code. destruct (generated_code_chars draws pos) as [Hchars Hne].
  fold code in Hchars, Hne.
  assert (Forall (fun c => isspace c = false) (list_ascii_of_string code)) as Hplain.
  { eapply Forall_impl; [exact Hchars|]. intros c Hc. by apply code_char_plain. }
  assert (Forall (fun c => isspace c = false) (list_ascii_of_string (lower code)))
    as Hlower.
  { apply lower_keeps_symbols. eapply Forall_impl; [exact Hchars|].
    intros c Hc. by apply code_char_plain. }
  assert (upper code = code /\ upper (lower code) = code) as [Hup Hround].
  { apply upper_lower_symbols. eapply Forall_impl; [exact Hchars|].
    intros c Hc. by apply code_char_plain. }
  assert (strip code = code) as Hstrip.
  { unfold strip. destruct code as [|c rest] eqn:Hcode; [done|].
    apply Forall_cons in Hplain as Hc. destruct Hc as [Hc _].
    rewrite lstrip_symbol by done. by apply rstrip_padded. }
  assert (strip (" " +:+ lower code +:+ " ") = lower code) as Hstrip'.
  { unfold strip. change (lstrip (" " +:+ lower code +:+ " "))
      with (lstrip (lower code +:+ " ")).
    destruct (lower code) as [|c rest] eqn:Hcode.
    - destruct code; [done|discriminate].
    - apply Forall_cons in Hlower as Hc. destruct Hc as [Hc _].
      change (String c rest +:+ " ") with (String c (rest +:+ " ")).
      rewrite lstrip_symbol by done.
      change (String c (rest +:+ " ")) with (String c rest +:+ " ").
      by apply rstrip_padded. }
  unfold requested_key_code. simpl. rewrite Hstrip, Hstrip', Hup, Hround.
  destruct (String.eqb_spec code ""); [done|]. done.
Qed.

(** X2.  A generated code is its own canonical form: [activate] reads the
    code itself out of a body that carries it as generated, and also out of
    a body that carries it in lower case with a blank on either side. *)
Theorem generated_code_canonical (draws : nat -> nat) (pos : nat) :
  let code := KeyGenerator.generate_activation_key draws pos in
  requested_key_code (Some [("key_code", JStr code)]) = inr code
  /\ requested_key_code (Some [("key_code", JStr (" " +:+ lower code +:+ " "))])
     = inr code.
Proof. apply canonical_request. Qed.

(** *** The evaluator, once more *)

Lemma whole_days (x : Z) :
  0 < x -> Z.max 0 (td_days x) = td_days x
           /\ td_days x * day <= x < (td_days x + 1) * day.
Proof.
  intros Hx. unfold td_days, day.
  pose proof (Z.div_pos x 86400000000 ltac:(lia) ltac:(lia)).
  pose proof (Z.mul_div_le x 86400000000 ltac:(lia)).
  pose proof (Z.mul_succ_div_gt x 86400000000 ltac:(lia)).
  lia.
Qed.

Lemma whole_hours (x : Z) : 0 <= td_seconds x / 3600 < 24.
Proof.
  unfold td_seconds, day.
  pose proof (Z.mod_pos_bound x 86400000000 ltac:(lia)) as Hmod.
  split.
  - apply Z.div_pos; [|lia]. apply Z.div_pos; lia.
  - apply Z.div_lt_upper_bound; [lia|]. apply Z.div_lt_upper_bound; lia.
Qed.



Lemma lookup_setitem (d : json) (k : string) (v : jval) :
  lookup_key (setitem d k v) k = Some v.
Proof.
  induction d as [|[k' v'] d IH]; simpl.
  - by rewrite String.eqb_refl.
  - destruct (String.eqb k' k) eqn:Hk; simpl; by rewrite Hk.
Qed.

Lemma lookup_setitem_ne (d : json) (k k' : string) (v : jval) :
  k <> k' -> lookup_key (setitem d k v) k' = lookup_key d k'.
Proof.
  intros Hne. induction d as [|[k0 v0] d IH]; simpl.
  - by rewrite (eqb_false _ _ Hne).
  - destruct (String.eqb k0 k) eqn:Hk; simpl.
    + apply String.eqb_eq in Hk as ->. by rewrite (eqb_false _ _ Hne).
    + by rewrite IH.
Qed.


(** *** The decorators *)

(** X6.  A request to a route under [jwt_required_custom] or
    [admin_required] that is not let through (no valid token, no such
    user, a disabled account, or no admin on an admin route) changes
    nothing, whatever it carries, and is answered by the decorator: the
    token error, 404 or 403. *)
Theorem decorators_keep_out (req : request) (now : datetime) (db : Store)
    (identity : option Z) :
  caller_of req = Some identity ->
  ~ let_through req db ->
  snd (dispatch req now db) = db
  /\ (fst (dispatch req now db) = Raised NoAuthorizationError
      \/ code_of (fst (dispatch req now db)) = Some 404
      \/ code_of (fst (dispatch req now db)) = Some 403).
Proof.
  intros Hcaller Hout.
  assert (forall user_id user,
            identity = Some user_id ->
            Query.first (Query.has_id User.id user_id) (users db) = Some user ->
            User.is_active user = true ->
            admin_only req = true /\ User.is_admin user = false) as Hwhy.
  { intros user_id user -> Hfind Hactive.
    destruct (admin_only req) eqn:Hadmin, (User.is_admin user) eqn:Hrole; try done;
      destruct Hout; exists user_id, user; repeat split; try done;
      intros; congruence. }
  destruct req; simpl in Hcaller; try discriminate; injection Hcaller as ->;
    simpl; unfold jwt_required_custom, admin_required;
    (destruct identity as [caller|]; [|by auto]);
    (destruct (Query.first _ (users db)) as [user|] eqn:Hfind; [|by auto]);
    (destruct (User.is_active user) eqn:Hactive; simpl; [|by auto]);
    destruct (Hwhy caller user eq_refl Hfind Hactive) as [Hadmin Hrole];
    try discriminate; rewrite Hrole; simpl; auto.
Qed.

(** *** Login *)

Lemma truthy_str (s : string) : s <> "" -> truthy (JStr s) = true.
Proof. intros Hs. simpl. by rewrite (eqb_false _ _ Hs). Qed.

(** X7.  A login with an email and a password that fails on the
    credentials is answered the same way whether the email is unknown or
    the password is wrong: 401 with the one message, and nothing changes. *)
Theorem login_hides_which_failed (d : json) (raw password : string)
    (now : datetime) (db : Store) :
  get d "email" (JStr "") = JStr raw ->
  lower (strip raw) <> "" ->
  get d "password" (JStr "") = JStr password ->
  password <> "" ->
  Query.first (fun u => String.eqb (User.email u) (lower (strip raw))) (users db) = None
  \/ (exists user,
        Query.first (fun u => String.eqb (User.email u) (lower (strip raw))) (users db)
          = Some user
        /\ check_password_hash (User.password_hash user) password = false) ->
  login (Some d) now db = (error "Invalid email or password" 401, db).
Proof.
  intros Hemail Hne Hpassword Hpw Hfail.
  assert (d <> []) as Hbody.
  { intros ->. simpl in Hemail. injection Hemail as <-. by apply Hne. }
  unfold login. rewrite (body_required_items d Hbody). simpl.
  rewrite Hemail, Hpassword. simpl.
  rewrite (eqb_false _ _ Hne), (eqb_false _ _ Hpw). simpl.
  destruct Hfail as [-> | (user & -> & Hcheck)]; [done|].
  simpl. by rewrite Hcheck.
Qed.

Lemma first_app_miss {A} (f : A -> bool) (rows : list A) (x : A) :
  f x = false -> Query.first f (rows ++ [x]) = Query.first f rows.
Proof.
  intros Hx. unfold Query.first.
  destruct (Query.first_at f rows) as [[i y]|] eqn:Hfind.
  - unfold Query.first_at in *. by erewrite list_find_app_l.
  - unfold Query.first_at in *. rewrite list_find_app_r by done. simpl.
    by rewrite decide_False by (rewrite Hx; by intros []).
Qed.

Lemma login_tracks_device (data : option json) (now : datetime) (db : Store) :
  snd (login data now db) = db
  \/ exists d,
       Device.trial_expires_at d = now
       /\ users (snd (login data now db)) = users db
       /\ activation_keys (snd (login data now db)) = activation_keys db
       /\ devices (snd (login data now db)) = devices db ++ [d].
Proof.
  unfold login. destruct (Py.bind _ _) as [r|o] eqn:Ho; simpl; [by left|].
  repeat (apply bind_inr in Ho as (? & _ & Ho)).
  destruct (Query.first _ (users db)) as [user|]; [|done].
  do 3 (apply bind_inr in Ho as (? & _ & Ho)).
  apply bind_inr in Ho as (db1 & Hdb1 & [= <-]).
  rewrite session_reply_db.
  destruct (truthy _ && truthy _); [|injection Hdb1 as <-; by left].
  apply bind_inr in Hdb1 as (device_id & _ & Hdb1).
  apply bind_inr in Hdb1 as (platform & _ & Hdb1).
  destruct (Query.first _ (devices db)); [injection Hdb1 as <-; by left|].
  apply insert_device_inserted in Hdb1 as Hshape.
  destruct Hshape as (Hkeys & Hdevices & _).
  right. eexists. split; [|split; [|split; [exact Hkeys|exact Hdevices]]].
  - reflexivity.
  - unfold insert_device in Hdb1. case_bool_decide; [done|]. by injection Hdb1 as <-.
Qed.

(** X8.  A login grants no trial: whatever the request and whoever the
    user, the entitlement evaluated at the instant of the login or later
    is the same on the database after the login as on the database before
    it, by [_get_activation_status] and by the handler [status]. *)
Theorem login_grants_nothing (data : option json) (now t : datetime)
    (db : Store) (user : User.t) :
  now <= t ->
  _get_activation_status user t (snd (login data now db))
    = _get_activation_status user t db
  /\ fst (status t user (snd (login data now db))) = fst (status t user db).
Proof.
  intros Hlater.
  destruct (login_tracks_device data now db)
    as [-> | (d & Hexpires & _ & Hkeys & Hdevices)]; [done|].
  assert (Query.first (active_trial_of (Zpos (User.id user)) t)
            (devices (snd (login data now db)))
          = Query.first (active_trial_of (Zpos (User.id user)) t) (devices db))
    as Htrial.
  { rewrite Hdevices. apply first_app_miss. unfold active_trial_of.
    rewrite Hexpires. destruct (Z.ltb_spec t now); [lia|]. apply andb_false_r. }
  unfold _get_activation_status, status. rewrite Hkeys, Htrial. split; [done|].
  destruct (Query.first _ (activation_keys db)) as [key|]; simpl.
  - by destruct (minus_now _ _).
  - by destruct (Query.first _ (devices db)).
Qed.

(** *** Disabled accounts *)

Lemma first_at_insert {A} (f : A -> bool) (rows : list A) (i : nat) (x x' : A) :
  Query.first_at f rows = Some (i, x) ->
  f x' = true ->
  Query.first_at f (<[i := x']> rows) = Some (i, x').
Proof.
  intros (Hi & _ & Hbefore)%first_at_Some Hx'. apply first_at_Some.
  split; [apply list_lookup_insert_eq; by eapply lookup_lt_Some|].
  split; [done|]. intros j y Hj Hlt.
  rewrite list_lookup_insert_ne in Hj by lia. by eapply Hbefore.
Qed.

(** X9.  Once an admin has set [is_active] of a user to a false value,
    the user is shut out: every route under [jwt_required_custom] or
    [admin_required] answers the token of that user with 'Account
    disabled', 403, without running the handler, and [refresh] issues no
    new access token. *)
Theorem disabled_account_is_shut_out (user_id : Z) (d : json) (v : jval)
    (admin target : User.t) (db : Store) :
  user_id <> 1 ->
  Query.first (Query.has_id User.id user_id) (users db) = Some target ->
  lookup_key d "is_active" = Some v ->
  truthy v = false ->
  lookup_key d "password" = None ->
  exists body db',
    update_user user_id (Some d) admin db = (Response body 200, db')
    /\ (forall fn,
          jwt_required_custom fn (Some user_id) db'
            = (error "Account disabled" 403, db')
          /\ admin_required fn (Some user_id) db'
             = (error "Account disabled" 403, db'))
    /\ refresh (Some user_id) db' = (error "Account disabled" 403, db').
Proof.
  intros Hsuper Htarget Hactive Hfalse Hpassword.
  assert (d <> []) as Hbody by (intros ->; discriminate).
  unfold Query.first in Htarget.
  destruct (Query.first_at _ (users db)) as [[i u]|] eqn:Hfind; [|done].
  injection Htarget as ->.
  unfold update_user.
  rewrite (proj2 (Z.eqb_neq user_id 1) Hsuper), Hfind,
    (body_required_items d Hbody). simpl.
  rewrite Hactive, Hpassword, Hfalse. simpl.
  eexists _, _. split; [reflexivity|].
  match goal with
  | |- context [<[i := ?u']> (users db)] =>
      assert (Query.first (Query.has_id User.id user_id) (<[i := u']> (users db))
              = Some u') as Hnow
  end.
  { unfold Query.first. erewrite first_at_insert; [done|exact Hfind|].
    apply first_at_Some in Hfind as (_ & Hid & _).
    apply has_id_true in Hid. apply has_id_true.
    by destruct (lookup_key d "is_admin"). }
  unfold jwt_required_custom, admin_required, refresh. simpl. rewrite Hnow.
  by destruct (lookup_key d "is_admin").
Qed.

Lemma first_at_app_new {A} (f : A -> bool) (rows : list A) (x : A) :
  Query.first_at f rows = None ->
  f x = true ->
  Query.first_at f (rows ++ [x]) = Some (length rows, x).
Proof.
  intros Hnone Hx. unfold Query.first_at in *.
  rewrite list_find_app_r by done. simpl.
  rewrite decide_True by (by rewrite Hx). simpl.
  by replace (0 + length rows)%nat with (length rows) by lia.
Qed.

Lemma insert_last {A} (rows : list A) (x y : A) :
  <[length rows := y]> (rows ++ [x]) = rows ++ [y].
Proof.
  induction rows as [|r rows IH]; simpl; [done|]. by rewrite IH.
Qed.

(** X10.  [create-admin] is idempotent: a second run for the same email,
    at any instant and with any password, leaves the database as the first
    run made it.  In particular the second password is dropped, as is the
    password of a run for an email that was registered before: that user is
    promoted and keeps the password hash it had. *)
Theorem create_admin_twice (email password password' : string)
    (now now' : datetime) (db : Store) :
  create_admin email password' now' (create_admin email password now db)
    = create_admin email password now db
  /\ forall i existing,
       Query.first_at (fun u => String.eqb (User.email u) email) (users db)
         = Some (i, existing) ->
       exists promoted,
         users (create_admin email password now db) !! i = Some promoted
         /\ User.is_admin promoted = true
         /\ User.password_hash promoted = User.password_hash existing.
Proof.
  unfold create_admin at 2 3 4.
  destruct (Query.first_at _ (users db)) as [[i existing]|] eqn:Hfind.
  - split.
    + unfold create_admin. simpl.
      erewrite first_at_insert; [|exact Hfind|].
      * unfold set_users. simpl. rewrite list_insert_insert_eq. reflexivity.
      * by apply first_at_Some in Hfind as (_ & Hemail & _).
    + intros j u [= <- <-]. exists (User.set_is_admin true existing).
      split; [|done]. simpl. apply list_lookup_insert_eq.
      apply first_at_Some in Hfind as (Hi & _ & _). by eapply lookup_lt_Some.
  - split; [|done]. unfold create_admin. simpl.
    erewrite first_at_app_new; [|exact Hfind|simpl; apply String.eqb_refl].
    unfold set_users. simpl. by rewrite insert_last.
Qed.

(** *** Registration *)

Lemma stops_with_bind {A B} (P : reply -> Prop) (m : handler A)
    (k : A -> handler B) :
  stops_with P m -> (forall x, m = inr x -> stops_with P (k x)) ->
  stops_with P (Py.bind m k).
Proof.
  intros Hm Hk r. destruct m as [r'|x]; simpl.
  - intros [= <-]. by apply Hm.
  - by apply Hk.
Qed.

Lemma stops_with_inr {A} (P : reply -> Prop) (x : A) :
  stops_with P (inr x : handler A).
Proof. by intros r. Qed.

Lemma stops_with_return_if (P : reply -> Prop) (c : bool) (r : reply) :
  P r -> stops_with P (return_if c r).
Proof. intros Hr r'. destruct c; simpl; [by intros [= <-]|done]. Qed.

Lemma stops_with_conversions (v : jval) :
  stops_with refusal (as_str v) /\ stops_with refusal (as_text v)
  /\ stops_with refusal (db_str v) /\ stops_with refusal (db_int v)
  /\ stops_with refusal (db_numeric v).
Proof.
  unfold stops_with.
  split; [|split; [|split; [|split]]]; intros r0 Hstop; destruct v;
    simpl in Hstop; try discriminate; injection Hstop as <-; by split.
Qed.

Lemma stops_with_body_required (data : option json) :
  stops_with refusal (body_required data).
Proof. intros r. destruct data as [[|item items]|]; simpl; intros [= <-]; by split. Qed.

Lemma return_if_passed (c : bool) (r : reply) (u : unit) :
  return_if c r = inr u -> c = false.
Proof. by destruct c. Qed.

Lemma registration_form_refuses (data : option json) :
  stops_with refusal (registration_form data).
Proof.
  unfold registration_form.
  apply stops_with_bind; [apply stops_with_body_required|intros d _].
  apply stops_with_bind; [apply stops_with_conversions|intros raw _].
  apply stops_with_bind; [by apply stops_with_return_if|intros _ _].
  apply stops_with_bind; [by apply stops_with_return_if|intros _ _].
  apply stops_with_bind; [apply stops_with_conversions|intros password _].
  apply stops_with_bind; [by apply stops_with_return_if|intros _ _].
  apply stops_with_bind; [by apply stops_with_return_if|intros _ _].
  apply stops_with_inr.
Qed.

(** What a body that passes the checks of [register] carries. *)
Lemma registration_form_inv (body : json) (email password : string)
    (device_id platform : jval) :
  registration_form (Some body) = inr (email, password, device_id, platform) ->
  exists raw,
    get body "email" (JStr "") = JStr raw
    /\ email = lower (strip raw) /\ email <> ""
    /\ get body "password" (JStr "") = JStr password /\ password <> ""
    /\ validate_email email = true /\ validate_password password = true
    /\ device_id = get body "device_id" (JStr "") /\ truthy device_id = true
    /\ platform = get body "platform" (JStr "android")
    /\ (platform = JStr "android" \/ platform = JStr "web").
Proof.
  unfold registration_form. intros Hform.
  apply bind_inr in Hform as (body' & Hbody & Hform).
  assert (body' = body) as -> by (destruct body; simpl in Hbody; congruence).
  apply bind_inr in Hform as (raw & Hraw & Hform).
  apply bind_inr in Hform as (u1 & Hfilled & Hform).
  apply bind_inr in Hform as (u2 & Hemail & Hform).
  apply bind_inr in Hform as (pw & Hpw & Hform).
  apply bind_inr in Hform as (u3 & Hvalid & Hform).
  apply bind_inr in Hform as (u4 & Hplatform & Hform).
  injection Hform as <- <- <- <-.
  apply return_if_passed in Hfilled, Hemail, Hvalid, Hplatform.
  apply orb_false_iff in Hfilled as [Hfilled Hdevice].
  apply orb_false_iff in Hfilled as [Hfilled Hpassword].
  apply negb_false_iff in Hdevice, Hpassword, Hemail, Hvalid, Hplatform.
  exists raw.
  destruct (get body "email" (JStr "")) as [| | |s| | |] eqn:Hget; try discriminate.
  injection Hraw as ->.
  destruct (get body "password" (JStr "")) as [| | |s| | |] eqn:Hgetpw;
    try discriminate.
  injection Hpw as ->.
  split; [done|]. split; [done|].
  split; [by apply String.eqb_neq|]. split; [done|].
  split; [intros ->; discriminate|].
  split; [done|]. split; [done|]. split; [done|]. split; [done|]. split; [done|].
  apply orb_true_iff in Hplatform as [Hp|Hp];
    destruct (get body "platform" (JStr "android")); try discriminate;
    simpl in Hp; apply String.eqb_eq in Hp as ->; auto.
Qed.

Lemma no_same_device (device_id platform : string) (ds : list Device.t) :
  Query.first (same_device device_id platform) ds = None ->
  (device_id, platform) ∉ map device_pair ds.
Proof.
  intros Hnone Hin. rewrite first_None in Hnone.
  change (map ?f ds) with (f <$> ds) in Hin.
  apply list_elem_of_fmap in Hin as (d & Hpair & Hd).
  specialize (Hnone d Hd).
  assert (same_device device_id platform d = true) by (by apply same_device_true).
  congruence.
Qed.

(** The user and the device a registration creates. *)
Lemma register_creates (body : json) (now : datetime) (db : Store)
    (email password device_id platform : string) :
  registration_form (Some body)
    = inr (email, password, JStr device_id, JStr platform) ->
  Query.first (fun u => String.eqb (User.email u) email) (users db) = None ->
  Query.first (same_device device_id platform) (devices db) = None ->
  let user := User.mk (users_id_seq db) email (generate_password_hash password)
                      true false now in
  let device := Device.mk (devices_id_seq db) (users_id_seq db) device_id platform
                          now (now + days_delta TRIAL_DURATION_DAYS) now in
  register (Some body) now db
  = session_reply user 201 now
      (mkStore (users db ++ [user]) (activation_keys db) (devices db ++ [device])
               (Pos.succ (users_id_seq db)) (activation_keys_id_seq db)
               (Pos.succ (devices_id_seq db))).
Proof.
  intros Hform Hemail Hdevice user device.
  unfold register. rewrite Hform. simpl. rewrite Hemail. simpl. rewrite Hdevice.
  unfold insert_device. simpl.
  rewrite bool_decide_false; [done|].
  apply (no_same_device device_id platform (devices db) Hdevice).
Qed.

Lemma evaluator_never_raises (user : User.t) (now : datetime) (db : Store) :
  exists body, _get_activation_status user now db = inr body.
Proof.
  unfold _get_activation_status. destruct (User.is_admin user); [eauto|].
  destruct (Query.first _ (activation_keys db)) as [key|] eqn:Hkey.
  - apply first_Some in Hkey as [_ Hkey].
    apply active_key_of_true in Hkey as (_ & _ & t & -> & _). simpl. eauto.
  - destruct (Query.first _ (devices db)); eauto.
Qed.

Lemma session_reply_answers (user : User.t) (code : Z) (now : datetime)
    (db : Store) :
  exists body activation,
    session_reply user code now db = (Response body code, db)
    /\ _get_activation_status user now db = inr activation
    /\ item body "activation" = Some activation.
Proof.
  destruct (evaluator_never_raises user now db) as (activation & Heval).
  unfold session_reply. rewrite Heval. simpl. eauto.
Qed.

Lemma register_created (body : json) (now : datetime) (db db' : Store)
    (b : jval) :
  register (Some body) now db = (Response b 201, db') ->
  exists email password device_id platform,
    registration_form (Some body)
      = inr (email, password, JStr device_id, JStr platform)
    /\ Query.first (fun u => String.eqb (User.email u) email) (users db) = None
    /\ Query.first (same_device device_id platform) (devices db) = None.
Proof.
  unfold register. intros Hrun.
  destruct (registration_form (Some body)) as [r|[[[email password] d] p]] eqn:Hform;
    simpl in Hrun.
  { injection Hrun as -> _.
    by destruct (registration_form_refuses _ _ Hform) as [_ []]. }
  destruct (Query.first _ (users db)) eqn:Hemail; simpl in Hrun; [done|].
  destruct d as [| | |device_id| | |]; simpl in Hrun; try done.
  destruct p as [| | |platform| | |]; simpl in Hrun; try done.
  destruct (Query.first _ (devices db)) eqn:Hdevice; simpl in Hrun; [done|].
  by exists email, password, device_id, platform.
Qed.




(** *** Extension, composed *)

Lemma extend_license_runs (user_id : Z) (d : json) (n : Z) (now : datetime)
    (admin target : User.t) (db : Store) (i : nat) (key : ActivationKey.t) :
  user_id <> 1 ->
  Query.first (Query.has_id User.id user_id) (users db) = Some target ->
  d <> [] ->
  get d "days" (JInt 0) = JInt n ->
  1 <= n ->
  Query.first_at (activated_key_of user_id) (activation_keys db) = Some (i, key) ->
  exists body,
    extend_license user_id (Some d) now admin db
    = (Response body 200,
       set_activation_keys (<[i := extend n now key]> (activation_keys db)) db).
Proof.
  intros Hsuper Htarget Hbody Hdays Hn Hfind. unfold extend_license.
  rewrite (proj2 (Z.eqb_neq user_id 1) Hsuper), Htarget,
    (body_required_items d Hbody). simpl.
  rewrite Hdays, (positive_days_int n Hn). simpl. rewrite Hfind. eauto.
Qed.

Lemma extend_keeps_holder (n : Z) (now : datetime) (uid : Z) (key : ActivationKey.t) :
  activated_key_of uid (extend n now key) = activated_key_of uid key.
Proof.
  unfold extend, activated_key_of.
  destruct (ActivationKey.expires_at key) as [t|]; [destruct (now <? t)|]; done.
Qed.


(** *** What [update_key] can do to a key *)

(** The row [update_key] writes: the key after the status block, edited by
    the setters of the sale fields, of the duration and of the expiry. *)
Lemma update_key_writes (key_id : Z) (data : option json) (now : datetime)
    (user : User.t) (db : Store) :
  snd (update_key key_id data now user db) = db
  \/ exists d i key key',
       data = Some d
       /\ Query.first_at (Query.has_id ActivationKey.id key_id) (activation_keys db)
          = Some (i, key)
       /\ activation_keys (snd (update_key key_id data now user db))
          = <[i := key']> (activation_keys db)
       /\ users (snd (update_key key_id data now user db)) = users db
       /\ forall P : ActivationKey.t -> Prop,
            P (fst (update_key_status d now key (devices db))) ->
            (forall v k, P k -> P (ActivationKey.set_sold_to_name v k)) ->
            (forall v k, P k -> P (ActivationKey.set_sold_to_email v k)) ->
            (forall v k, P k -> P (ActivationKey.set_notes v k)) ->
            (forall v k, P k -> P (ActivationKey.set_duration_days v k)) ->
            (forall v k, P k -> P (ActivationKey.set_expires_at v k)) ->
            (forall v k, P k -> P (ActivationKey.set_sold_price v k)) ->
            P key'.
Proof.
  unfold update_key.
  destruct (Query.first_at _ (activation_keys db)) as [[i key]|] eqn:Hfind;
    [|by left].
  destruct (Py.bind _ _) as [r|o] eqn:Ho; simpl; [by left|].
  apply bind_inr in Ho as (d & Hd & Ho).
  assert (data = Some d) as ->.
  { destruct data as [[|item items]|]; simpl in Hd; congruence. }
  destruct (update_key_status d now key (devices db)) as [k0 ds] eqn:Hstatus.
  apply bind_inr in Ho as (k1 & Hk1 & Ho).
  apply bind_inr in Ho as (k2 & Hk2 & Ho).
  apply bind_inr in Ho as (k3 & Hk3 & Ho).
  apply bind_inr in Ho as (k4 & Hk4 & Ho).
  apply bind_inr in Ho as (k5 & Hk5 & [= <-]). simpl.
  right. exists d, i, key, k5. do 4 (split; [done|]).
  intros P H0 Hname Hemail Hnotes Hduration Hexpires Hprice.
  rewrite Hstatus in H0. simpl in H0.
  apply update_text_cases in Hk1, Hk2, Hk3.
  assert (P k3) as H3.
  { destruct Hk1 as [[_ ->]|(? & _ & ->)], Hk2 as [[_ ->]|(? & _ & ->)],
      Hk3 as [[_ ->]|(? & _ & ->)]; auto. }
  assert (P k4) as H4.
  { unfold update_key_duration in Hk4.
    destruct (lookup_key d "duration_days"); [|by injection Hk4 as <-].
    apply bind_inr in Hk4 as (n & _ & [= <-]).
    repeat case_match; auto. }
  destruct (lookup_key d "sold_price") as [v|]; [|by injection Hk5 as <-].
  apply bind_inr in Hk5 as (price & _ & [= <-]). auto.
Qed.

(** X15.  [update_key] never activates a key and never re-opens one.
    Whatever the request, either nothing changes, or one key row is
    rewritten and its new status is the old one, or 'revoked', or 'sold'
    on a key that was 'available'; the key keeps its identifier and its
    code, and its [user_id] is the old one or null. *)
Theorem update_key_transitions (key_id : Z) (data : option json)
    (now : datetime) (user : User.t) (db : Store) :
  snd (update_key key_id data now user db) = db
  \/ exists i key key',
       activation_keys db !! i = Some key
       /\ activation_keys (snd (update_key key_id data now user db))
          = <[i := key']> (activation_keys db)
       /\ ActivationKey.id key' = ActivationKey.id key
       /\ ActivationKey.key_code key' = ActivationKey.key_code key
       /\ (ActivationKey.status key' = ActivationKey.status key
           \/ ActivationKey.status key' = "revoked"
           \/ (ActivationKey.status key = "available"
               /\ ActivationKey.status key' = "sold"))
       /\ (ActivationKey.user_id key' = ActivationKey.user_id key
           \/ ActivationKey.user_id key' = None).
Proof.
  destruct (update_key_writes key_id data now user db)
    as [Hsame|(d & i & key & key' & -> & Hfind & Hkeys & _ & Hall)]; [by left|].
  right. exists i, key, key'.
  split; [by apply first_at_Some in Hfind as (? & _)|]. split; [done|].
  apply (Hall (fun k =>
    ActivationKey.id k = ActivationKey.id key
    /\ ActivationKey.key_code k = ActivationKey.key_code key
    /\ (ActivationKey.status k = ActivationKey.status key
        \/ ActivationKey.status k = "revoked"
        \/ (ActivationKey.status key = "available"
            /\ ActivationKey.status k = "sold"))
    /\ (ActivationKey.user_id k = ActivationKey.user_id key
        \/ ActivationKey.user_id k = None))); try done.
  unfold update_key_status.
  destruct (lookup_key d "status") as [v|]; [|by auto 10].
  destruct (eq_str v "revoked"); [simpl; by auto 10|].
  destruct (eq_str v "sold"); simpl; [|by auto 10].
  destruct (String.eqb_spec (ActivationKey.status key) "available"); simpl; auto 10.
Qed.

(** *** The lifecycle, seen by the evaluator *)

Lemma plain_revocation_runs (key_id : Z) (d : json) (now : datetime)
    (user : User.t) (db : Store) (i : nat) (key : ActivationKey.t) :
  Query.first_at (Query.has_id ActivationKey.id key_id) (activation_keys db)
    = Some (i, key) ->
  lookup_key d "status" = Some (JStr "revoked") ->
  lookup_key d "sold_to_name" = None ->
  lookup_key d "sold_to_email" = None ->
  lookup_key d "sold_price" = None ->
  lookup_key d "notes" = None ->
  lookup_key d "duration_days" = None ->
  snd (update_key key_id (Some d) now user db)
  = mkStore (users db) (<[i := revoke key]> (activation_keys db))
            (match ActivationKey.user_id key with
             | Some uid => expire_trials uid now (devices db)
             | None => devices db
             end)
            (users_id_seq db) (activation_keys_id_seq db) (devices_id_seq db).
Proof.
  intros Hfind Hstatus Hname Hemail Hprice Hnotes Hduration.
  assert (d <> []) as Hbody by (intros ->; discriminate).
  unfold update_key.
  rewrite Hfind, (body_required_items d Hbody). simpl.
  unfold update_key_status, update_text, update_key_duration.
  by rewrite Hstatus, Hname, Hemail, Hprice, Hnotes, Hduration.
Qed.

(** X16.  Revocation takes the paid and the trial access away at once.
    After a request that revokes a key of a user and edits nothing else,
    the handler [status] answers that user 'expired' at the instant of the
    revocation and at every later instant at which no other key of the
    user is active. *)
Theorem revoked_user_is_expired (key_id : Z) (d : json) (now t : datetime)
    (admin user : User.t) (db : Store) (i : nat) (key : ActivationKey.t) :
  Query.first_at (Query.has_id ActivationKey.id key_id) (activation_keys db)
    = Some (i, key) ->
  ActivationKey.user_id key = Some (User.id user) ->
  lookup_key d "status" = Some (JStr "revoked") ->
  lookup_key d "sold_to_name" = None ->
  lookup_key d "sold_to_email" = None ->
  lookup_key d "sold_price" = None ->
  lookup_key d "notes" = None ->
  lookup_key d "duration_days" = None ->
  now <= t ->
  (forall j k, activation_keys db !! j = Some k -> j <> i ->
               active_key_of (Zpos (User.id user)) t k = false) ->
  fst (status t user (snd (update_key key_id (Some d) now admin db)))
  = Response (JObj [("status", JStr "expired"); ("days_remaining", JInt 0)]) 200.
Proof.
  intros Hfind Hholder Hstatus Hname Hemail Hprice Hnotes Hduration Hlater Hothers.
  rewrite (plain_revocation_runs key_id d now admin db i key) by done.
  rewrite Hholder. unfold status. simpl.
  assert (Query.first (active_key_of (Zpos (User.id user)) t)
            (<[i := revoke key]> (activation_keys db)) = None) as ->.
  { apply first_None. intros k [j Hj]%list_elem_of_lookup_1.
    destruct (decide (j = i)) as [->|Hne].
    - apply first_at_Some in Hfind as (Hi & _).
      rewrite list_lookup_insert_eq in Hj by (by eapply lookup_lt_Some).
      by injection Hj as <-.
    - rewrite list_lookup_insert_ne in Hj by done. by eapply Hothers. }
  assert (Query.first (active_trial_of (Zpos (User.id user)) t)
            (expire_trials (User.id user) now (devices db)) = None) as ->; [|done].
  apply first_None. intros dev [n Hn]%list_elem_of_lookup_1.
  unfold expire_trials in Hn. change (map ?f ?l) with (f <$> l) in Hn.
  rewrite list_lookup_fmap in Hn.
  destruct (devices db !! n) as [dev0|]; [|done]. injection Hn as <-.
  destruct (active_trial_of (Zpos (User.id user)) now dev0) eqn:Htrial.
  - apply active_trial_of_true in Htrial as [Hu _].
    unfold active_trial_of. simpl.
    destruct (Z.ltb_spec t now); [lia|]. apply andb_false_r.
  - destruct (active_trial_of (Zpos (User.id user)) t dev0) eqn:Hlate; [|done].
    apply active_trial_of_true in Hlate as [Hu Hlt].
    assert (active_trial_of (Zpos (User.id user)) now dev0 = true)
      by (apply active_trial_of_true; split; [done|lia]).
    congruence.
Qed.



(** X19.  A deleted key is gone and only that key: when the identifiers
    of the keys are pairwise distinct and [delete_key] is answered with
    200, every key with another identifier is still there, no key is
    added, and a second [delete_key] for the same identifier is answered
    'Key not found', 404. *)
Theorem deleted_key_is_gone (key_id : Z) (user user' : User.t) (db db' : Store)
    (b : jval) :
  NoDup (map ActivationKey.id (activation_keys db)) ->
  delete_key key_id user db = (Response b 200, db') ->
  (forall k, k ∈ activation_keys db' ->
             k ∈ activation_keys db /\ Zpos (ActivationKey.id k) <> key_id)
  /\ (forall k, k ∈ activation_keys db -> Zpos (ActivationKey.id k) <> key_id ->
                k ∈ activation_keys db')
  /\ delete_key key_id user' db' = (error "Key not found" 404, db').
Proof.
  intros Hunique. unfold delete_key at 1.
  destruct (Query.first_at _ (activation_keys db)) as [[i key]|] eqn:Hfind;
    simpl; [|done].
  intros [= _ <-]. simpl.
  apply first_at_Some in Hfind as (Hi & Hid & _). apply has_id_true in Hid.
  assert (forall k, k ∈ delete i (activation_keys db) ->
                    k ∈ activation_keys db /\ Zpos (ActivationKey.id k) <> key_id)
    as Hrest.
  { intros k [j Hj]%list_elem_of_lookup_1.
    split.
    - by eapply list_elem_of_delete_inv, list_elem_of_lookup_2.
    - intros Hsame.
      assert (ActivationKey.id k = ActivationKey.id key) as Heq by congruence.
      destruct (decide (j < i)%nat).
      + rewrite list_lookup_delete_lt in Hj by done.
        assert (j = i); [|lia].
        eapply NoDup_lookup; [exact Hunique| |].
        * change (map ?f ?l) with (f <$> l). rewrite list_lookup_fmap, Hj. done.
        * change (map ?f ?l) with (f <$> l). rewrite list_lookup_fmap, Hi.
          simpl. by rewrite Heq.
      + rewrite list_lookup_delete_ge in Hj by lia.
        assert (S j = i); [|lia].
        eapply NoDup_lookup; [exact Hunique| |].
        * change (map ?f ?l) with (f <$> l). rewrite list_lookup_fmap, Hj. done.
        * change (map ?f ?l) with (f <$> l). rewrite list_lookup_fmap, Hi.
          simpl. by rewrite Heq. }
  split; [exact Hrest|]. split.
  - intros k [j Hj]%list_elem_of_lookup_1 Hother.
    assert (j <> i) by (intros ->; rewrite Hi in Hj; congruence).
    destruct (decide (j < i)%nat).
    + eapply list_elem_of_lookup_2. by rewrite list_lookup_delete_lt.
    + eapply (list_elem_of_lookup_2 _ (pred j)).
      rewrite list_lookup_delete_ge by lia. replace (S (pred j)) with j by lia. done.
  - unfold delete_key. simpl.
    assert (Query.first_at (Query.has_id ActivationKey.id key_id)
              (delete i (activation_keys db)) = None) as ->; [|done].
    apply first_at_None. intros k Hk. destruct (Hrest k Hk) as [_ Hother].
    destruct (Query.has_id ActivationKey.id key_id k) eqn:Hhas; [|done].
    by apply has_id_true in Hhas.
Qed.

(** *** Batches of keys *)

Lemma generate_loop_rows (n : nat) (draws : nat -> nat) (pos : nat)
    (next_id : positive) (duration_days : Z) (initial_status : string)
    (sold_to_name sold_to_email : option string) (sold_at : option datetime)
    (sold_price : option Z) (notes : option string) (created_by : positive)
    (now : datetime) (k : ActivationKey.t) :
  k ∈ generate_loop n draws pos next_id duration_days initial_status
        sold_to_name sold_to_email sold_at sold_price notes created_by now ->
  exists id code,
    k = ActivationKey.mk id code duration_days initial_status None None None None
          sold_to_name sold_to_email sold_at sold_price notes (Some created_by) now.
Proof.
  revert pos next_id. induction n as [|n IH]; intros pos next_id; simpl.
  - by intros ?%elem_of_nil.
  - intros [->|Hk]%elem_of_cons; [eauto|]. by eapply IH.
Qed.

Lemma or_None_truthy (s : string) :
  (opt_truthy (or_None s) = true -> or_None s <> None)
  /\ (opt_truthy (or_None s) = false -> or_None s = None).
Proof.
  unfold or_None. destruct (String.eqb s "") eqn:Hs; simpl; [done|].
  rewrite Hs. done.
Qed.


Lemma insert_keys_accepts (ks : list ActivationKey.t) (db db' : Store) :
  insert_keys ks db = inr db' ->
  forall k, k ∈ ks ->
    ActivationKey.key_code k ∉ map ActivationKey.key_code (activation_keys db).
Proof.
  revert db. induction ks as [|k0 ks IH]; intros db; simpl.
  - by intros _ k ?%elem_of_nil.
  - unfold insert_key. case_bool_decide as Hin; simpl; [done|].
    intros Hrest k [->|Hk]%elem_of_cons; [done|].
    specialize (IH _ Hrest k Hk). simpl in IH. rewrite map_app in IH.
    intros Hold. apply IH. apply elem_of_app. by left.
Qed.

Lemma insert_keys_raises (ks : list ActivationKey.t) (db : Store) (r : reply) :
  insert_keys ks db = inl r -> r = Raised IntegrityError.
Proof.
  revert db. induction ks as [|k0 ks IH]; intros db; simpl; [done|].
  unfold insert_key. case_bool_decide as Hin; simpl; [congruence|].
  apply IH.
Qed.


(** *** Who writes the table of users *)

Lemma settle_users (db : Store) (h : handler outcome) :
  (forall o, h = inr o -> users (snd o) = users db) ->
  users (snd (settle db h)) = users db.
Proof. destruct h as [r|o]; simpl; auto. Qed.

Lemma decorated_users (fn : User.t -> Store -> outcome) (identity : option Z)
    (db : Store) (i : nat) (u : User.t) :
  (forall user, users (snd (fn user db)) !! i = Some u) ->
  users db !! i = Some u ->
  users (snd (jwt_required_custom fn identity db)) !! i = Some u
  /\ users (snd (admin_required fn identity db)) !! i = Some u.
Proof.
  intros Hfn Hi. unfold jwt_required_custom, admin_required.
  split; repeat case_match; simpl; try apply Hfn; done.
Qed.

Lemma register_users (data : option json) (now : datetime) (db : Store) :
  users (snd (register data now db)) = users db
  \/ exists user, users (snd (register data now db)) = users db ++ [user].
Proof.
  unfold register. destruct (Py.bind _ _) as [r|o] eqn:Ho; simpl; [by left|].
  apply bind_inr in Ho as ([[[email password] device_id] platform] & _ & Ho).
  repeat (apply bind_inr in Ho as (? & _ & Ho)).
  destruct (Query.first _ (devices db)); [done|].
  apply bind_inr in Ho as (db2 & Hins & [= <-]).
  rewrite session_reply_db. right.
  unfold insert_device in Hins. case_bool_decide; [done|].
  injection Hins as <-. simpl. eauto.
Qed.

Lemma login_users (data : option json) (now : datetime) (db : Store) :
  users (snd (login data now db)) = users db.
Proof.
  destruct (login_tracks_device data now db) as [-> | (d & _ & Hus & _)]; done.
Qed.

Lemma me_users (now : datetime) (user : User.t) (db : Store) :
  users (snd (me now user db)) = users db.
Proof.
  unfold me. apply settle_users. intros o Ho.
  by apply bind_inr in Ho as (? & _ & [= <-]).
Qed.

Lemma status_users (now : datetime) (user : User.t) (db : Store) :
  users (snd (status now user db)) = users db.
Proof.
  unfold status. apply settle_users. intros o Ho.
  repeat case_match; try (apply bind_inr in Ho as (? & _ & Ho));
    by injection Ho as <-.
Qed.

Lemma check_device_users (data : option json) (db : Store) :
  users (snd (check_device data db)) = users db.
Proof.
  unfold check_device. apply settle_users. intros o Ho.
  repeat (apply bind_inr in Ho as (? & _ & Ho)).
  by injection Ho as <-.
Qed.

Lemma activate_users (data : option json) (now : datetime) (user : User.t)
    (db : Store) :
  users (snd (activate data now user db)) = users db.
Proof.
  unfold activate. apply settle_users. intros o Ho.
  apply bind_inr in Ho as (key_code & _ & Ho).
  destruct (Query.first_at _ (activation_keys db)) as [[i key]|]; [|done].
  repeat (apply bind_inr in Ho as (? & _ & Ho)).
  by injection Ho as <-.
Qed.

Lemma extend_license_users (user_id : Z) (data : option json)
    (now : datetime) (admin : User.t) (db : Store) :
  users (snd (extend_license user_id data now admin db)) = users db.
Proof.
  unfold extend_license. apply settle_users. intros o Ho.
  apply bind_inr in Ho as (? & _ & Ho).
  destruct (Query.first _ (users db)) as [target|]; [|done].
  repeat (apply bind_inr in Ho as (? & _ & Ho)).
  destruct (Query.first_at _ (activation_keys db)) as [[i key]|]; [|done].
  by injection Ho as <-.
Qed.

Lemma assign_key_users (user_id : Z) (data : option json) (now : datetime)
    (admin : User.t) (db : Store) :
  users (snd (assign_key user_id data now admin db)) = users db.
Proof.
  unfold assign_key. apply settle_users. intros o Ho.
  apply bind_inr in Ho as (? & _ & Ho).
  destruct (Query.first _ (users db)) as [target|]; [|done].
  repeat (apply bind_inr in Ho as (? & _ & Ho)).
  destruct (Query.first_at _ (activation_keys db)) as [[i key]|]; [|done].
  repeat (apply bind_inr in Ho as (? & _ & Ho)).
  by injection Ho as <-.
Qed.

Lemma generate_keys_users (data : option json) (draws : nat -> nat)
    (now : datetime) (admin_user : User.t) (db : Store) :
  users (snd (generate_keys data draws now admin_user db)) = users db.
Proof.
  unfold generate_keys. apply settle_users. intros o Ho.
  apply bind_inr in Ho as (rows & _ & Ho).
  apply bind_inr in Ho as (db' & Hins & [= <-]). simpl.
  by apply insert_keys_inserted in Hins as (_ & -> & _).
Qed.

Lemma update_key_users (key_id : Z) (data : option json) (now : datetime)
    (user : User.t) (db : Store) :
  users (snd (update_key key_id data now user db)) = users db.
Proof.
  unfold update_key. apply settle_users. intros o Ho.
  destruct (Query.first_at _ (activation_keys db)) as [[i key]|]; [|done].
  apply bind_inr in Ho as (d & _ & Ho).
  destruct (update_key_status d now key (devices db)) as [k0 ds]. simpl in *.
  repeat (apply bind_inr in Ho as (? & _ & Ho)).
  by injection Ho as <-.
Qed.

Lemma delete_key_users (key_id : Z) (user : User.t) (db : Store) :
  users (snd (delete_key key_id user db)) = users db.
Proof.
  unfold delete_key. apply settle_users. intros o Ho.
  destruct (Query.first_at _ (activation_keys db)) as [[i key]|]; [|done].
  by injection Ho as <-.
Qed.

Lemma update_user_users (user_id : Z) (data : option json) (admin : User.t)
    (db : Store) :
  users (snd (update_user user_id data admin db)) = users db
  \/ exists i target target',
       user_id <> 1
       /\ users db !! i = Some target
       /\ Zpos (User.id target) = user_id
       /\ users (snd (update_user user_id data admin db))
          = <[i := target']> (users db).
Proof.
  unfold update_user. destruct (Py.bind _ _) as [r|o] eqn:Ho; simpl; [by left|].
  apply bind_inr in Ho as (? & Hguard & Ho).
  unfold return_if in Hguard. destruct (user_id =? 1) eqn:Hid; [done|].
  apply Z.eqb_neq in Hid.
  destruct (Query.first_at _ (users db)) as [[i target]|] eqn:Hfind; [|done].
  apply first_at_Some in Hfind as (Hi & Hmatch & _).
  unfold Query.has_id in Hmatch. apply Z.eqb_eq in Hmatch.
  repeat (apply bind_inr in Ho as (? & _ & Ho)).
  injection Ho as <-. simpl. right. eauto 10.
Qed.

(** X22.  A row of the table of users is rewritten by no request other
    than PUT /admin/users/<its id>, and the row of user 1 by none: after
    any other request, answered or refused, the row is where it was, as it
    was. *)
Theorem user_row_is_kept (req : request) (now : datetime) (db : Store)
    (i : nat) (u : User.t) :
  users db !! i = Some u ->
  User.id u = 1%positive
  \/ (forall identity data,
        req <> AdminUpdateUser identity (Zpos (User.id u)) data) ->
  users (snd (dispatch req now db)) !! i = Some u.
Proof.
  intros Hi Hother.
  destruct req; simpl;
    try (apply decorated_users; [intros user|done]);
    rewrite ?login_users, ?me_users, ?status_users, ?check_device_users,
      ?activate_users, ?extend_license_users, ?assign_key_users,
      ?generate_keys_users, ?update_key_users, ?delete_key_users; try done.
  - destruct (register_users data now db) as [-> | [user ->]]; [done|].
    by apply lookup_app_l_Some.
  - destruct (update_user_users user_id data user db)
      as [-> | (j & target & target' & Hid & Hj & Htarget & ->)]; [done|].
    destruct (decide (j = i)) as [-> | Hne].
    + assert (target = u) as -> by congruence.
      destruct Hother as [Hroot | Hother].
      * rewrite Hroot in Htarget. by destruct Hid.
      * destruct (Hother identity data). by rewrite Htarget.
    + by rewrite list_lookup_insert_ne.
Qed.

(** *** Trials *)

Lemma trial_shortened_refl (d : Device.t) : trial_shortened d d.
Proof. exists (Device.trial_expires_at d). split; [by destruct d|lia]. Qed.

Lemma trial_shortened_trans (d1 d2 d3 : Device.t) :
  trial_shortened d1 d2 -> trial_shortened d2 d3 -> trial_shortened d1 d3.
Proof.
  intros (t & -> & Ht) (t' & -> & Ht'). exists t'. simpl in *.
  split; [done|lia].
Qed.

Lemma expire_trials_shortens (uid : positive) (now : datetime)
    (ds : list Device.t) (i : nat) (d : Device.t) :
  ds !! i = Some d ->
  exists d', expire_trials uid now ds !! i = Some d' /\ trial_shortened d d'.
Proof.
  intros Hi. rewrite (expire_trials_lookup uid now ds i d Hi).
  eexists. split; [reflexivity|].
  destruct (active_trial_of (Zpos uid) now d) eqn:Hactive.
  - exists now. split; [done|].
    unfold active_trial_of in Hactive.
    apply andb_true_iff in Hactive as [_ Hlater%Z.ltb_lt]. lia.
  - apply trial_shortened_refl.
Qed.

Lemma effect_trials (db db' : Store) (i : nat) (d : Device.t) :
  effect db db' ->
  devices db !! i = Some d ->
  exists d', devices db' !! i = Some d' /\ trial_shortened d d'.
Proof.
  intros Heffect Hi.
  destruct Heffect as [|us n|j k k' ds _ _ Hds|j|rows db' Hins _|us n d0 db' Hins];
    simpl; eauto using trial_shortened_refl.
  - destruct Hds as [->|(uid & now & ->)]; eauto using trial_shortened_refl.
    by apply expire_trials_shortens.
  - apply insert_keys_inserted in Hins as (_ & _ & ->).
    eauto using trial_shortened_refl.
  - apply insert_device_inserted in Hins as (_ & -> & _). simpl.
    exists d. split; [by apply lookup_app_l_Some|apply trial_shortened_refl].
Qed.

(** X23.  A trial is never lengthened: along any
    sequence of operations a device row stays where it is, nothing of it
    changes but [trial_expires_at], and [trial_expires_at] only moves
    to an earlier instant. *)
Theorem trial_is_never_lengthened (db db' : Store) (i : nat) (d : Device.t) :
  steps db db' ->
  devices db !! i = Some d ->
  exists t,
    devices db' !! i = Some (Device.set_trial_expires_at t d)
    /\ t <= Device.trial_expires_at d.
Proof.
  intros Hsteps. revert d.
  induction Hsteps as [db|db db1 db' Hstep _ IH]; intros d Hi.
  - destruct (trial_shortened_refl d) as (t & Hd & Ht).
    exists t. by rewrite <- Hd.
  - apply step_effect in Hstep.
    destruct (effect_trials db db1 i d Hstep Hi) as (d1 & Hi1 & Hshort1).
    destruct (IH d1 Hi1) as (t & Hi' & Ht).
    destruct (trial_shortened_trans d d1 (Device.set_trial_expires_at t d1) Hshort1)
      as (t' & Hd' & Ht'); [by exists t|].
    exists t'. by rewrite <- Hd'.
Qed.

End Properties.

(** ** The statements on the scenario *)

Import Scenario.

#[local] Existing Instance Scenario.externals.


(** C1 at [noon]: the admin [root] holds no key and no device. *)
Lemma status_ignores_admin_root :
  (exists body,
     _get_activation_status root noon db0 = inr body
     /\ item body "status" = Some (JStr "active"))
  /\ (exists body,
        status noon root db0 = (Response body 200, db0)
        /\ item body "status" = Some (JStr "expired")).
Proof.
  apply (status_ignores_admin root noon db0).
  - reflexivity.
  - intros k Hk. each_row Hk; reflexivity.
  - intros d Hd. each_row Hd; reflexivity.
Defined.

(** The same request through the route and its decorator. *)
Lemma status_route_root :
  fst (dispatch (ActivationStatus (Some 1)) noon db0)
  = Response (JObj [("status", JStr "expired"); ("days_remaining", JInt 0)]) 200.
Proof. reflexivity. Qed.

(** C3: Bob tries the code of the key Alice has activated. *)
Lemma activate_rejects_used_key_bob :
  snd (activate redeem_A noon bob db0) = db0
  /\ (ActivationKey.status alice_key = "activated"
      \/ ActivationKey.status alice_key = "revoked" ->
      code_of (fst (activate redeem_A noon bob db0)) = Some 409)
  /\ (ActivationKey.status alice_key <> "activated" ->
      ActivationKey.status alice_key <> "revoked" ->
      code_of (fst (activate redeem_A noon bob db0)) = Some 400).
Proof.
  apply (activate_rejects_used_key redeem_A noon bob db0 "AAAA-AAAA-AAAA-AAAA" 0);
    first [reflexivity | discriminate].
Defined.




(** C6: the admin revokes [alice_key] at [noon], while the trial of
    [alice_phone] is running. *)
Lemma revoke_clears_key_and_trials_alice :
  exists body db' key',
    update_key 1 (Some revocation) noon root db0 = (Response body 200, db')
    /\ activation_keys db' = <[0%nat := key']> (activation_keys db0)
    /\ ActivationKey.status key' = "revoked"
    /\ ActivationKey.user_id key' = None
    /\ ActivationKey.activated_email key' = None
    /\ ActivationKey.activated_at key' = None
    /\ ActivationKey.expires_at key' = None
    /\ ActivationKey.sold_at key' = ActivationKey.sold_at alice_key
    /\ ActivationKey.sold_to_name key' = ActivationKey.sold_to_name alice_key
    /\ ActivationKey.sold_to_email key' = ActivationKey.sold_to_email alice_key
    /\ ActivationKey.sold_price key' = ActivationKey.sold_price alice_key
    /\ ActivationKey.notes key' = ActivationKey.notes alice_key
    /\ length (devices db') = length (devices db0)
    /\ devices db' !! 0%nat = Some (Device.set_trial_expires_at noon alice_phone).
Proof.
  destruct (revoke_clears_key_and_trials 1 revocation noon root db0 0 alice_key)
    as [Heffect Hanswered]; [reflexivity|reflexivity|].
  destruct Hanswered as (body & db' & Hrun); [reflexivity..|].
  destruct (Heffect body db' Hrun)
    as (key' & Hkeys & Hs & Hu & He & Ha & Hx & Hat & Hname & Hemail & Hprice
        & Hnotes & Hlen & Hdevices).
  exists body, db', key'.
  repeat (split; [first [assumption | auto]|]).
  destruct (Hdevices 0%nat alice_phone eq_refl) as (Hexpired & _ & _).
  apply Hexpired; reflexivity.
Defined.

(** C7: Carol registers from Alice's phone. *)
Lemma register_rejects_known_device_carol :
  snd (register carol_registers noon db0) = db0
  /\ code_of (fst (register carol_registers noon db0)) = Some 409.
Proof.
  destruct (register_rejects_known_device
              [ ("email", JStr "Carol@Example.com"); ("password", JStr "secret4");
                ("device_id", JStr "phone-1"); ("platform", JStr "android") ]
              noon db0 "phone-1" "android" alice_phone)
    as [Hsame Hcode]; first [reflexivity | in_rows | idtac].
  split; [exact Hsame|].
  exact (Hcode "carol@example.com" "secret4" (JStr "phone-1") (JStr "android") eq_refl).
Defined.



Lemma db0_keys_recorded : keys_recorded db0.
Proof.
  intros k Hk Hs. each_row Hk; try discriminate.
  eexists _, _, _, _. repeat (split; [reflexivity|]). reflexivity.
Defined.



Lemma db0_devices_unique : devices_unique db0.
Proof. unfold devices_unique. simpl. apply NoDup_singleton. Defined.

(** C10: Bob logs in from a new tablet. *)
Lemma device_pairs_stay_bound_db0 :
  devices_unique (snd (dispatch (AuthLogin bob_logs_in) noon db0))
  /\ (forall d, d ∈ devices db0 ->
       exists d',
         d' ∈ devices (snd (dispatch (AuthLogin bob_logs_in) noon db0))
         /\ device_pair d' = device_pair d)
  /\ (forall d d',
       d ∈ devices db0 ->
       d' ∈ devices (snd (dispatch (AuthLogin bob_logs_in) noon db0)) ->
       device_pair d' = device_pair d ->
       Device.user_id d' = Device.user_id d).
Proof.
  apply (device_pairs_stay_bound db0).
  - exact db0_devices_unique.
  - apply rtc_once. apply step_request.
Defined.

(** Bob logs in from Alice's phone: the insert of a second row for the
    pair violates [uq_device_platform], the request fails and the row stays
    Alice's. *)
Lemma login_on_known_device :
  login bob_logs_in_on_alice_phone noon db0 = (Raised IntegrityError, db0).
Proof. reflexivity. Qed.

(** ** The further properties on the scenario *)

(** X1: the first code of the counting source. *)
Lemma generated_code_format_counting :
  String.length (KeyGenerator.generate_activation_key counting 0) = 19%nat
  /\ forall i c,
       String.get i (KeyGenerator.generate_activation_key counting 0) = Some c ->
       (i = 4%nat \/ i = 9%nat \/ i = 14%nat -> c = "-"%char)
       /\ (i <> 4%nat -> i <> 9%nat -> i <> 14%nat ->
           code_symbol c
           /\ c ∉ ["0"%char; "O"%char; "1"%char; "I"%char; "L"%char]).
Proof. exact (generated_code_format counting 0). Defined.




(** X6: Alice, who is no admin, asks for the deletion of key 3. *)
Lemma decorators_keep_out_alice :
  snd (dispatch (AdminDeleteKey (Some 2) 3) noon db0) = db0
  /\ (fst (dispatch (AdminDeleteKey (Some 2) 3) noon db0) = Raised NoAuthorizationError
      \/ code_of (fst (dispatch (AdminDeleteKey (Some 2) 3) noon db0)) = Some 404
      \/ code_of (fst (dispatch (AdminDeleteKey (Some 2) 3) noon db0)) = Some 403).
Proof.
  apply (decorators_keep_out (AdminDeleteKey (Some 2) 3) noon db0 (Some 2)).
  - reflexivity.
  - intros (user_id & user & Hcaller & Hfound & _ & Hadmin).
    injection Hcaller as <-. vm_compute in Hfound. injection Hfound as <-.
    specialize (Hadmin eq_refl). discriminate Hadmin.
Defined.

(** X7: Bob mistypes his password. *)
Lemma login_hides_which_failed_bob :
  login (Some bob_mistypes) noon db0 = (error "Invalid email or password" 401, db0).
Proof.
  apply (login_hides_which_failed bob_mistypes " Bob@Example.com" "secret9" noon db0);
    first [reflexivity | discriminate | idtac].
  right. exists bob. split; reflexivity.
Defined.

(** X8: Bob logs in from a new tablet; Alice's entitlement a day later. *)
Lemma login_grants_nothing_bob :
  _get_activation_status alice (noon + day) (snd (login bob_logs_in noon db0))
    = _get_activation_status alice (noon + day) db0
  /\ fst (status (noon + day) alice (snd (login bob_logs_in noon db0)))
     = fst (status (noon + day) alice db0).
Proof.
  apply (login_grants_nothing bob_logs_in noon (noon + day) db0 alice).
  unfold day. lia.
Defined.

(** X9: the admin disables Bob. *)
Lemma disabled_account_is_shut_out_bob :
  exists body db',
    update_user 3 (Some disable) root db0 = (Response body 200, db')
    /\ (forall fn,
          jwt_required_custom fn (Some 3) db' = (error "Account disabled" 403, db')
          /\ admin_required fn (Some 3) db' = (error "Account disabled" 403, db'))
    /\ refresh (Some 3) db' = (error "Account disabled" 403, db').
Proof.
  apply (disabled_account_is_shut_out 3 disable (JBool false) root bob db0);
    first [reflexivity | discriminate].
Defined.

(** X10: the command is run twice for Alice's address. *)
Lemma create_admin_twice_alice :
  create_admin "alice@example.com" "secret7" noon
    (create_admin "alice@example.com" "secret6" 0 db0)
    = create_admin "alice@example.com" "secret6" 0 db0
  /\ forall i existing,
       Query.first_at (fun u => String.eqb (User.email u) "alice@example.com")
                      (users db0)
         = Some (i, existing) ->
       exists promoted,
         users (create_admin "alice@example.com" "secret6" 0 db0) !! i = Some promoted
         /\ User.is_admin promoted = true
         /\ User.password_hash promoted = User.password_hash existing.
Proof. exact (create_admin_twice "alice@example.com" "secret6" "secret7" 0 noon db0). Defined.





(** X16: [alice_key] is revoked at [noon]; Alice holds no other key. *)
Lemma revoked_user_is_expired_alice :
  fst (status noon alice (snd (update_key 1 (Some revocation) noon root db0)))
  = Response (JObj [("status", JStr "expired"); ("days_remaining", JInt 0)]) 200.
Proof.
  apply (revoked_user_is_expired 1 revocation noon noon root alice db0 0 alice_key);
    first [reflexivity | lia | idtac].
  intros j k Hj Hne. destruct j as [|[|[|j]]]; simpl in Hj; try done;
    injection Hj as <-; reflexivity.
Defined.



(** X19: the admin deletes key 3. *)
Lemma deleted_key_is_gone_three :
  (forall k, k ∈ activation_keys (snd (delete_key 3 root db0)) ->
             k ∈ activation_keys db0 /\ Zpos (ActivationKey.id k) <> 3)
  /\ (forall k, k ∈ activation_keys db0 -> Zpos (ActivationKey.id k) <> 3 ->
                k ∈ activation_keys (snd (delete_key 3 root db0)))
  /\ delete_key 3 root (snd (delete_key 3 root db0))
     = (error "Key not found" 404, snd (delete_key 3 root db0)).
Proof.
  eapply (deleted_key_is_gone 3 root root db0).
  - apply (bool_decide_unpack _). by vm_compute.
  - reflexivity.
Defined.



(** X22: the admin tries to disable user 1. *)
Lemma user_row_is_kept_root :
  users (snd (dispatch (AdminUpdateUser (Some 1) 1 (Some disable)) noon db0)) !! 0%nat
  = Some root.
Proof.
  apply (user_row_is_kept (AdminUpdateUser (Some 1) 1 (Some disable)) noon db0 0 root).
  - reflexivity.
  - left. reflexivity.
Defined.

(** X23: [alice_key] is revoked at [noon], and the trial of [alice_phone]
    with it. *)
Lemma trial_is_never_lengthened_alice :
  exists t,
    devices (snd (dispatch (AdminUpdateKey (Some 1) 1 (Some revocation)) noon db0)) !! 0%nat
      = Some (Device.set_trial_expires_at t alice_phone)
    /\ t <= Device.trial_expires_at alice_phone.
Proof.
  apply (trial_is_never_lengthened db0).
  - apply rtc_once. apply step_request.
  - reflexivity.
Defined.
